(** * The Dgraph adapter of Auth.js: a shallow embedding and its properties

    Source: [packages/adapter-dgraph/src/index.ts].  Every adapter method
    builds a GraphQL document and a variables object, awaits [c.run] on the
    transport client and reshapes the answer.  The embedding keeps that
    structure: JavaScript values are a small inductive type, a method is a
    program of a free monad whose only effect is the call of [c.run], and a
    program is executed against a handler that stands for the transport and
    the server behind it. *)

From Stdlib Require Import String Ascii List ZArith Bool Lia DecimalString.
Import ListNotations.
Local Open Scope string_scope.
Local Open Scope list_scope.
Set Warnings "-register-all".

(** ** JavaScript values *)

Module JS.

(** The values that reach the adapter: what a parsed JSON answer holds, plus
    [undefined] (an absent property).  Numbers are the integers: the adapter
    reads no number but an array's [length]. *)
Inductive value : Type :=
| VUndefined
| VNull
| VBool (b : bool)
| VNum (n : Z)
| VStr (s : string)
| VArr (items : list value)
| VObj (props : list (string * value)).

(** An object is the list of its own properties in insertion order. *)
Definition obj : Type := list (string * value).

Fixpoint lookup (k : string) (o : obj) : option value :=
  match o with
  | [] => None
  | (k', v) :: o' => if String.eqb k k' then Some v else lookup k o'
  end.

(** [o.k] on an object: the property, or [undefined]. *)
Definition get (k : string) (o : obj) : value :=
  match lookup k o with
  | Some v => v
  | None => VUndefined
  end.

(** The rest of a destructuring [{ k, ...rest } = o]. *)
Definition omit (k : string) (o : obj) : obj :=
  filter (fun kv => negb (String.eqb k (fst kv))) o.

(** [{ ...o, k: v }]: an existing key keeps its place and takes the new value,
    a new key goes last. *)
Fixpoint set (k : string) (v : value) (o : obj) : obj :=
  match o with
  | [] => [(k, v)]
  | (k', v') :: o' =>
      if String.eqb k k' then (k, v) :: o' else (k', v') :: set k v o'
  end.

(** [undefined] and [null]: the values on which [?.] stops and [.] throws. *)
Definition nullish (v : value) : bool :=
  match v with
  | VUndefined | VNull => true
  | _ => false
  end.

(** ToBoolean. *)
Definition truthy (v : value) : bool :=
  match v with
  | VUndefined | VNull => false
  | VBool b => b
  | VNum n => negb (Z.eqb n 0)
  | VStr s => negb (String.eqb s "")
  | VArr _ | VObj _ => true
  end.

(** [v === undefined]. *)
Definition is_undefined (v : value) : bool :=
  match v with
  | VUndefined => true
  | _ => false
  end.

(** Reading the named property [k] of a value that is not nullish.  Arrays and
    strings have [length]; the adapter reads no other property of them by
    name. *)
Definition read (v : value) (k : string) : value :=
  match v with
  | VObj o => get k o
  | VArr xs => if String.eqb k "length" then VNum (Z.of_nat (List.length xs)) else VUndefined
  | VStr s => if String.eqb k "length" then VNum (Z.of_nat (String.length s)) else VUndefined
  | _ => VUndefined
  end.

Definition index_key (i : nat) : string :=
  NilEmpty.string_of_uint (Nat.to_uint i).

(** Reading the element [i] of a value that is not nullish.  A string is
    indexed, and measured by [read], in bytes, where JavaScript counts UTF-16
    units: the two agree on ASCII text, and the records the adapter reads are
    objects and arrays. *)
Definition read_index (v : value) (i : nat) : value :=
  match v with
  | VArr xs => nth i xs VUndefined
  | VObj o => get (index_key i) o
  | VStr s =>
      match String.get i s with
      | Some c => VStr (String c EmptyString)
      | None => VUndefined
      end
  | _ => VUndefined
  end.

(** [v?.k] and [v?.[i]]. *)
Definition opt_member (v : value) (k : string) : value :=
  if nullish v then VUndefined else read v k.

Definition opt_index (v : value) (i : nat) : value :=
  if nullish v then VUndefined else read_index v i.

(** [a || b] on values. *)
Definition or_else (a b : value) : value :=
  if truthy a then a else b.

(** [n > 0] for the result of reading [length]: a number is compared as it
    is, a boolean through ToNumber, and [undefined] and [null] compare false.
    (Strings and objects, which JavaScript parses as numbers first, are not
    the [length] of an array or a string.) *)
Definition gt0 (n : value) : bool :=
  match n with
  | VNum z => Z.ltb 0 z
  | VBool b => b
  | _ => false
  end.

(** ToString inside a template literal, for what a fragment can be: a string,
    or [undefined] (written [None]). *)
Definition interpolate (v : option string) : string :=
  match v with
  | Some s => s
  | None => "undefined"
  end.

End JS.

Import JS.

(** ** The transport client *)

Module Client.

(** The template literals of [index.ts], one per call of [c.run]. *)
Inductive Operation : Type :=
| AddUser
| GetUser
| QueryUser
| QueryAccount
| UpdateUser
| GetUserLinks
| DeleteUser
| DeleteAccountsAndSessions
| AddAccount
| DeleteAccount
| GetSessionAndUser
| AddSession
| DeleteSession
| AddVerificationToken
| DeleteVerificationToken.

(** The literal text of each template, cut at its interpolations. *)
Definition strings (op : Operation) : list string :=
  match op with
  | AddUser =>
      ["
          mutation ($input: [AddUserInput!]!) {
            addUser(input: $input) {
              user {
                ...UserFragment
              }
            }
          }
          ";
       "
        "]
  | GetUser =>
      ["
          query ($id: ID!) {
            getUser(id: $id) {
              ...UserFragment
            }
          }
          ";
       "
        "]
  | QueryUser =>
      ["
          query ($email: String!) {
            queryUser(filter: { email: { eq: $email } }) {
              ...UserFragment
            }
          }
          ";
       "
        "]
  | QueryAccount =>
      ["
          query ($providerAccountId: String!, $provider: String!) {
            queryAccount(
              filter: {
                and: [
                  { providerAccountId: { eq: $providerAccountId } }
                  { provider: { eq: $provider } }
                ]
              }
            ) {
              user {
                ...UserFragment
              }
            }
          }
          ";
       "
        "]
  | UpdateUser =>
      ["
          mutation ($id: ID!, $input: UserPatch!) {
            updateUser(input: { filter: { id: [$id] }, set: $input }) {
              user {
                ...UserFragment
              }
            }
          }
          ";
       "
        "]
  | GetUserLinks =>
      ["
          query ($userId: ID!) {
            getUser(id: $userId) {
              ...UserFragment
              accounts {
                id
              }
              sessions {
                sessionToken
              }
            }
          }
          ";
       "
        "]
  | DeleteUser =>
      ["
          mutation ($userId: [ID!]!) {
            deleteUser(filter: { id: $userId }) {
              user {
                ...UserFragment
              }
            }
          }
          ";
       "
        "]
  | DeleteAccountsAndSessions =>
      ["
            mutation ($accountIds: [ID!], $sessionTokens: [String!]) {
              deleteAccount(filter: { id: $accountIds }) {
                numUids
              }
              deleteSession(filter: { sessionToken: $sessionTokens }) {
                numUids
              }
            }
          "]
  | AddAccount =>
      ["
          mutation ($input: [AddAccountInput!]!) {
            addAccount(input: $input) {
              account {
                ...AccountFragment
              }
            }
          }
          ";
       "
        "]
  | DeleteAccount =>
      ["
          mutation ($providerAccountId: String!, $provider: String!) {
            deleteAccount(
              filter: {
                and: [
                  { providerAccountId: { eq: $providerAccountId } }
                  { provider: { eq: $provider } }
                ]
              }
            ) {
              account {
                ...AccountFragment
              }
            }
          }
          ";
       "
        "]
  | GetSessionAndUser =>
      ["
          query GetSessionAndUser($sessionToken: String!) {
            getSessionAndUser(filter: { sessionToken: { eq: $sessionToken } }) {
              session {
                ...SessionFragment
              }
              user {
                ...UserFragment
              }
            }
          }
          ";
       "
          ";
       "
        "]
  | AddSession =>
      ["
          mutation CreateSession($input: [AddSessionInput!]!) {
            addSession(input: $input) {
              session {
                ...SessionFragment
              }
            }
          }
          ";
       "
        "]
  | DeleteSession =>
      ["
          mutation DeleteSession($sessionToken: String!) {
            deleteSession(filter: { sessionToken: { eq: $sessionToken } }) {
              session {
                ...SessionFragment
              }
            }
          }
          ";
       "
        "]
  | AddVerificationToken =>
      ["
          mutation CreateVerificationToken(
            $input: [AddVerificationTokenInput!]!
          ) {
            addVerificationToken(input: $input) {
              verificationToken {
                identifier
                token
                expires
              }
            }
          }
        "]
  | DeleteVerificationToken =>
      ["
          mutation UseVerificationToken($token: String!, $identifier: String!) {
            deleteVerificationToken(
              filter: {
                and: [
                  { token: { eq: $token } }
                  { identifier: { eq: $identifier } }
                ]
              }
            ) {
              verificationToken {
                ...VerificationTokenFragment
              }
            }
          }
          ";
       "
        "]
  end.

(** A GraphQL document: a template and the values interpolated into it, in
    order ([None] is [undefined]). *)
Record Document : Type := mkDocument {
  template : Operation;
  interpolated : list (option string)
}.

Fixpoint fill (parts : list string) (vals : list (option string)) : string :=
  match parts with
  | [] => ""
  | p :: parts' =>
      match vals with
      | [] => p ++ fill parts' []
      | v :: vals' => p ++ interpolate v ++ fill parts' vals'
      end
  end.

(** The string the template literal evaluates to. *)
Definition text (d : Document) : string :=
  fill (strings (template d)) (interpolated d).

(** The two arguments of [c.run]. *)
Record Request : Type := mkRequest {
  query : Document;
  variables : value
}.

(** What an adapter method can throw: [new Error(message)], a [TypeError]
    raised by a property read on [undefined] or [null], or whatever the
    transport threw. *)
Inductive exn : Type :=
| Error (message : string)
| TypeError
| ClientError (errors : value).

(** An adapter method: it returns, throws, or awaits [c.run] and goes on with
    the answer. *)
Inductive Prog (A : Type) : Type :=
| Ret (a : A)
| Throw (e : exn)
| Run (req : Request) (k : value -> Prog A).

Arguments Ret {A} a.
Arguments Throw {A} e.
Arguments Run {A} req k.

Fixpoint bind {A B : Type} (p : Prog A) (f : A -> Prog B) : Prog B :=
  match p with
  | Ret a => f a
  | Throw e => Throw e
  | Run req k => Run req (fun v => bind (k v) f)
  end.

(** [await c.run(query, variables)]. *)
Definition run (q : Document) (vars : value) : Prog value :=
  Run (mkRequest q vars) Ret.

(** [v.k] and [v[i]]: a [TypeError] on [undefined] and [null]. *)
Definition member (v : value) (k : string) : Prog value :=
  if nullish v then Throw TypeError else Ret (read v k).

Definition index (v : value) (i : nat) : Prog value :=
  if nullish v then Throw TypeError else Ret (read_index v i).

(** [a || b] on conditions: [b] is evaluated only when [a] is false. *)
Definition por (a b : Prog bool) : Prog bool :=
  bind a (fun x => if x then Ret true else b).

Fixpoint mapM {A B : Type} (f : A -> Prog B) (xs : list A) : Prog (list B) :=
  match xs with
  | [] => Ret []
  | x :: xs' => bind (f x) (fun y => bind (mapM f xs') (fun ys => Ret (y :: ys)))
  end.

(** [v.map(f)]: only an array has [map]. *)
Definition array_map (f : value -> Prog value) (v : value) : Prog value :=
  match v with
  | VArr xs => bind (mapM f xs) (fun ys => Ret (VArr ys))
  | _ => Throw TypeError
  end.

(** The transport and the server behind it: an answer, or an error thrown, and
    the server's next state. *)
Definition Handler (S : Type) : Type := Request -> S -> (exn + value) * S.

Inductive Outcome (A : Type) : Type :=
| Returned (a : A)
| Thrown (e : exn).

Arguments Returned {A} a.
Arguments Thrown {A} e.

(** One invocation of a method: the requests the transport received, in order,
    how the method ended, and the server's state at that point. *)
Record Execution (S A : Type) : Type := mkExecution {
  calls : list Request;
  outcome : Outcome A;
  final : S
}.

Arguments mkExecution {S A} calls outcome final.
Arguments calls {S A} e.
Arguments outcome {S A} e.
Arguments final {S A} e.

Fixpoint exec {S A : Type} (h : Handler S) (p : Prog A) (s : S) : Execution S A :=
  match p with
  | Ret a => mkExecution [] (Returned a) s
  | Throw e => mkExecution [] (Thrown e) s
  | Run req k =>
      match h req s with
      | (inl e, s') => mkExecution [req] (Thrown e) s'
      | (inr v, s') =>
          let r := exec h (k v) s' in
          mkExecution (req :: calls r) (outcome r) (final r)
      end
  end.

End Client.

Import Client.

Declare Scope prog_scope.
Delimit Scope prog_scope with prog.
Notation "x <- c ;; k" := (bind c (fun x => k))
  (at level 61, c at next level, right associativity) : prog_scope.
Notation "c ;;; k" := (bind c (fun _ => k))
  (at level 61, right associativity) : prog_scope.

(** ** The adapter *)

Module Adapter.

Local Open Scope prog_scope.

(** The keys of [options.fragments] and of the default fragments. *)
Inductive Entity : Type :=
| User
| Account
| Session
| VerificationToken.

(** [options.fragments]: each key is absent ([None]) or present, and a present
    key holds a string or [undefined] (the type [User?: string] admits
    both). *)
Definition FragmentOverrides : Type := Entity -> option (option string).

(** [DgraphAdapterOptions]; [None] is an absent or undefined [fragments]. *)
Record DgraphAdapterOptions : Type := mkOptions {
  fragments : option FragmentOverrides
}.

(** [{ ...a, ...b }] at one key: a key present in [b] wins, with whatever it
    holds. *)
Definition spread (a : option string) (b : option (option string)) : option string :=
  match b with
  | Some v => v
  | None => a
  end.

Section Methods.

(** The object [fragments] of [DgraphAdapter]: a string per entity, or
    [undefined]. *)
Variable fragments : Entity -> option string.

Definition createUser (user : obj) : Prog value :=
  let userWithoutId := omit "id" user in
  result <- run (mkDocument AddUser [fragments User])
                (VObj [("input", VArr [VObj userWithoutId])]) ;;
  failed <- por (Ret (negb (truthy result)))
                (u <- member result "user" ;; Ret (negb (truthy u))) ;;
  if failed then Throw (Error "Failed to create user")
  else u <- member result "user" ;; index u 0.

Definition getUser (id : string) : Prog value :=
  run (mkDocument GetUser [fragments User]) (VObj [("id", VStr id)]).

Definition getUserByEmail (email : string) : Prog value :=
  result <- run (mkDocument QueryUser [fragments User])
                (VObj [("email", VStr email)]) ;;
  Ret (or_else (opt_index (opt_member result "user") 0) VNull).

Definition getUserByAccount (account : obj) : Prog value :=
  let provider := get "provider" account in
  let providerAccountId := get "providerAccountId" account in
  result <- run (mkDocument QueryAccount [fragments User])
                (VObj [("providerAccountId", providerAccountId);
                       ("provider", provider)]) ;;
  Ret (or_else (opt_member (opt_index result 0) "user") VNull).

Definition updateUser (user : obj) : Prog value :=
  let id := get "id" user in
  let update := omit "id" user in
  result <- run (mkDocument UpdateUser [fragments User])
                (VObj [("id", id); ("input", VObj update)]) ;;
  if negb (truthy (opt_index (opt_member result "user") 0))
  then Throw (Error "Failed to update user")
  else u <- member result "user" ;; index u 0.

Definition deleteUser (userId : string) : Prog value :=
  fetchResult <- run (mkDocument GetUserLinks [fragments User])
                     (VObj [("userId", VStr userId)]) ;;
  let user := opt_index (opt_member fetchResult "user") 0 in
  if negb (truthy user) then Ret VNull
  else
    deleteResult <- run (mkDocument DeleteUser [fragments User])
                        (VObj [("userId", VArr [VStr userId])]) ;;
    let deletedUser := opt_index (opt_member deleteResult "user") 0 in
    if negb (truthy deletedUser) then Throw (Error "Failed to delete user")
    else
      linked <- por (a <- member user "accounts" ;;
                     n <- member a "length" ;; Ret (gt0 n))
                    (s <- member user "sessions" ;;
                     n <- member s "length" ;; Ret (gt0 n)) ;;
      (if linked then
         a <- member user "accounts" ;;
         accountIds <- array_map (fun x => member x "id") a ;;
         s <- member user "sessions" ;;
         sessionTokens <- array_map (fun x => member x "sessionToken") s ;;
         run (mkDocument DeleteAccountsAndSessions [])
             (VObj [("accountIds", accountIds);
                    ("sessionTokens", sessionTokens)]) ;;;
         Ret tt
       else Ret tt) ;;;
      Ret deletedUser.

Definition linkAccount (account : obj) : Prog value :=
  let userId := get "userId" account in
  let inputWithoutId := omit "userId" (omit "id" account) in
  result <- run (mkDocument AddAccount [fragments Account])
                (VObj [("input",
                        VArr [VObj (set "user" (VObj [("id", userId)])
                                        inputWithoutId)])]) ;;
  if negb (truthy (opt_index (opt_member result "account") 0))
  then Throw (Error "Failed to link account")
  else a <- member result "account" ;; index a 0.

Definition unlinkAccount (account : obj) : Prog value :=
  let provider := get "provider" account in
  let providerAccountId := get "providerAccountId" account in
  result <- run (mkDocument DeleteAccount [fragments Account])
                (VObj [("providerAccountId", providerAccountId);
                       ("provider", provider)]) ;;
  Ret (opt_index (opt_member result "account") 0).

Definition getSessionAndUser (sessionToken : string) : Prog value :=
  result <- run (mkDocument GetSessionAndUser [fragments Session; fragments User])
                (VObj [("sessionToken", VStr sessionToken)]) ;;
  let sessionAndUser := opt_index (opt_member result "getSessionAndUser") 0 in
  missing <- por (Ret (negb (truthy sessionAndUser)))
                 (por (u <- member sessionAndUser "user" ;; Ret (negb (truthy u)))
                      (s <- member sessionAndUser "session" ;; Ret (negb (truthy s)))) ;;
  if missing then Ret VNull else Ret sessionAndUser.

Definition createSession (session : obj) : Prog value :=
  let sessionToken := get "sessionToken" session in
  let userId := get "userId" session in
  let expires := get "expires" session in
  if is_undefined userId then Throw (Error "userId is undefined in createSession")
  else
    result <- run (mkDocument AddSession [fragments Session])
                  (VObj [("input",
                          VArr [VObj [("sessionToken", sessionToken);
                                      ("expires", expires);
                                      ("user", VObj [("id", userId)])]])]) ;;
    if negb (truthy (opt_index (opt_member result "session") 0))
    then Throw (Error "Failed to create session")
    else s <- member result "session" ;; index s 0.

Definition deleteSession (sessionToken : string) : Prog value :=
  result <- run (mkDocument DeleteSession [fragments Session])
                (VObj [("sessionToken", VStr sessionToken)]) ;;
  Ret (or_else (opt_index (opt_member result "session") 0) VNull).

Definition createVerificationToken (input : obj) : Prog value :=
  result <- run (mkDocument AddVerificationToken [])
                (VObj [("input", VArr [VObj input])]) ;;
  let createdToken := opt_index (opt_member result "verificationToken") 0 in
  if negb (truthy createdToken)
  then Throw (Error "Failed to create verification token")
  else Ret createdToken.

Definition useVerificationToken (params : obj) : Prog value :=
  result <- run (mkDocument DeleteVerificationToken [fragments VerificationToken])
                (VObj params) ;;
  Ret (or_else (opt_index (opt_member result "verificationToken") 0) VNull).

End Methods.

(** The object [DgraphAdapter] returns. *)
Record Adapter : Type := mkAdapter {
  adapter_createUser : obj -> Prog value;
  adapter_getUser : string -> Prog value;
  adapter_getUserByEmail : string -> Prog value;
  adapter_getUserByAccount : obj -> Prog value;
  adapter_updateUser : obj -> Prog value;
  adapter_deleteUser : string -> Prog value;
  adapter_linkAccount : obj -> Prog value;
  adapter_unlinkAccount : obj -> Prog value;
  adapter_getSessionAndUser : string -> Prog value;
  adapter_createSession : obj -> Prog value;
  adapter_deleteSession : string -> Prog value;
  adapter_createVerificationToken : obj -> Prog value;
  adapter_useVerificationToken : obj -> Prog value
}.

Section Construction.

(** The exports of [lib/graphql/fragments.js], a string per entity.  They are
    a parameter: nothing below depends on what the strings are. *)
Variable defaultFragments : Entity -> string.

(** [{ ...defaultFragments, ...options?.fragments }]. *)
Definition merged_fragments (options : option DgraphAdapterOptions)
  : Entity -> option string :=
  fun e =>
    match options with
    | Some (mkOptions (Some overrides)) =>
        spread (Some (defaultFragments e)) (overrides e)
    | _ => Some (defaultFragments e)
    end.

(** [DgraphAdapter(client, options)].  The argument [client] only configures
    the transport, which is the handler the programs are executed against. *)
Definition DgraphAdapter (options : option DgraphAdapterOptions) : Adapter :=
  let fragments := merged_fragments options in
  mkAdapter
    (createUser fragments)
    (getUser fragments)
    (getUserByEmail fragments)
    (getUserByAccount fragments)
    (updateUser fragments)
    (deleteUser fragments)
    (linkAccount fragments)
    (unlinkAccount fragments)
    (getSessionAndUser fragments)
    (createSession fragments)
    (deleteSession fragments)
    createVerificationToken
    (useVerificationToken fragments).

End Construction.

End Adapter.

Import Adapter.

(** ** A reference backend *)

Module Dgraph.

(** Modelled from the spec: the transport client ([lib/client]) and the Dgraph
    server it talks to, which lie outside [index.ts].  The store holds the
    four entities of the data model (a User; an Account with its owner,
    provider and providerAccountId; a Session with its sessionToken, expiry
    and owner; a VerificationToken with identifier, token and expiry).  Ids are assigned by the store on insert, a patch overwrites
    the given fields, a delete removes every record its filter matches and
    reports the removed records, and a query reports the matching records.
    Each answer has the shape the call site of [c.run] in [index.ts] declares
    for it; which fields a fragment selects is not modelled (a record is
    reported with all its fields). *)
Record UserNode : Type := mkUser {
  user_id : string;
  user_fields : obj
}.

Record AccountNode : Type := mkAccount {
  account_id : string;
  account_user : string;
  account_provider : string;
  account_providerAccountId : string;
  account_fields : obj
}.

Record SessionNode : Type := mkSession {
  session_id : string;
  session_user : string;
  session_sessionToken : string;
  session_expires : value
}.

Record TokenNode : Type := mkToken {
  token_identifier : string;
  token_token : string;
  token_expires : value
}.

Record Store : Type := mkStore {
  users : list UserNode;
  accounts : list AccountNode;
  sessions : list SessionNode;
  verificationTokens : list TokenNode;
  next_id : nat
}.

Definition empty : Store := mkStore [] [] [] [] 1.

(** *** Records as JSON *)

Definition user_json (u : UserNode) : value :=
  VObj (("id", VStr (user_id u)) :: user_fields u).

Definition owner_ref (id : string) : value :=
  VObj [("id", VStr id)].

Definition account_json (a : AccountNode) : value :=
  VObj (("id", VStr (account_id a))
        :: ("provider", VStr (account_provider a))
        :: ("providerAccountId", VStr (account_providerAccountId a))
        :: ("user", owner_ref (account_user a))
        :: account_fields a).

Definition session_json (s : SessionNode) : value :=
  VObj [("id", VStr (session_id s));
        ("sessionToken", VStr (session_sessionToken s));
        ("expires", session_expires s);
        ("user", owner_ref (session_user s))].

Definition token_json (t : TokenNode) : value :=
  VObj [("identifier", VStr (token_identifier t));
        ("token", VStr (token_token t));
        ("expires", token_expires t)].

(** *** Reading the variables of a request *)

Definition as_string (v : value) : option string :=
  match v with
  | VStr s => Some s
  | _ => None
  end.

Definition as_object (v : value) : option obj :=
  match v with
  | VObj o => Some o
  | _ => None
  end.

Fixpoint as_strings (vs : list value) : option (list string) :=
  match vs with
  | [] => Some []
  | v :: vs' =>
      match as_string v, as_strings vs' with
      | Some s, Some ss => Some (s :: ss)
      | _, _ => None
      end
  end.

Definition as_string_list (v : value) : option (list string) :=
  match v with
  | VArr vs => as_strings vs
  | _ => None
  end.

(** The single element of the variable [input] of an insert. *)
Definition first_input (vars : value) : option obj :=
  as_object (read_index (read vars "input") 0).

Definition mem (x : string) (l : list string) : bool :=
  existsb (String.eqb x) l.

(** *** Filters *)

Definition has_id (id : string) (u : UserNode) : bool :=
  String.eqb id (user_id u).

Definition has_email (email : string) (u : UserNode) : bool :=
  match get "email" (user_fields u) with
  | VStr e => String.eqb email e
  | _ => false
  end.

Definition owned_by (id : string) (a : AccountNode) : bool :=
  String.eqb id (account_user a).

Definition held_by (id : string) (s : SessionNode) : bool :=
  String.eqb id (session_user s).

Definition has_pair (provider providerAccountId : string) (a : AccountNode) : bool :=
  String.eqb providerAccountId (account_providerAccountId a)
  && String.eqb provider (account_provider a).

Definition has_sessionToken (t : string) (s : SessionNode) : bool :=
  String.eqb t (session_sessionToken s).

Definition has_token (token identifier : string) (t : TokenNode) : bool :=
  String.eqb token (token_token t) && String.eqb identifier (token_identifier t).

(** The owner of an account or a session as the join reports it: the user
    record, or [null] when the link points to no user. *)
Definition owner_json (st : Store) (id : string) : value :=
  match find (has_id id) (users st) with
  | Some u => user_json u
  | None => VNull
  end.

Definition fresh (st : Store) : string := index_key (next_id st).

(** [{ ...fields, ...patch }], key by key. *)
Definition patch_fields (patch fields : obj) : obj :=
  fold_left (fun acc kv => set (fst kv) (snd kv) acc) patch fields.

(** *** The operations, one per template *)

Definition answer_list (key : string) (records : list value) : value :=
  VObj [(key, VArr records)].

Definition add_user (vars : value) (st : Store) : option (value * Store) :=
  match first_input vars with
  | Some input =>
      let u := mkUser (fresh st) (omit "id" input) in
      Some (answer_list "user" [user_json u],
            mkStore (users st ++ [u]) (accounts st) (sessions st)
                    (verificationTokens st) (S (next_id st)))
  | None => None
  end.

Definition get_user (vars : value) (st : Store) : option (value * Store) :=
  match as_string (read vars "id") with
  | Some id => Some (owner_json st id, st)
  | None => None
  end.

Definition query_user (vars : value) (st : Store) : option (value * Store) :=
  match as_string (read vars "email") with
  | Some email =>
      Some (answer_list "user" (map user_json (filter (has_email email) (users st))), st)
  | None => None
  end.

Definition query_account (vars : value) (st : Store) : option (value * Store) :=
  match as_string (read vars "provider"), as_string (read vars "providerAccountId") with
  | Some provider, Some providerAccountId =>
      Some (VArr (map (fun a => VObj [("user", owner_json st (account_user a))])
                      (filter (has_pair provider providerAccountId) (accounts st))),
            st)
  | _, _ => None
  end.

Definition update_user (vars : value) (st : Store) : option (value * Store) :=
  match as_string (read vars "id"), as_object (read vars "input") with
  | Some id, Some patch =>
      let updated u :=
        if has_id id u then mkUser (user_id u) (patch_fields (omit "id" patch) (user_fields u))
        else u in
      let users' := map updated (users st) in
      Some (answer_list "user" (map user_json (filter (has_id id) users')),
            mkStore users' (accounts st) (sessions st) (verificationTokens st) (next_id st))
  | _, _ => None
  end.

(** The user with the ids of the accounts and the tokens of the sessions that
    point to it. *)
Definition user_links_json (st : Store) (u : UserNode) : value :=
  VObj (("id", VStr (user_id u))
        :: ("accounts",
            VArr (map (fun a => VObj [("id", VStr (account_id a))])
                      (filter (owned_by (user_id u)) (accounts st))))
        :: ("sessions",
            VArr (map (fun s => VObj [("sessionToken", VStr (session_sessionToken s))])
                      (filter (held_by (user_id u)) (sessions st))))
        :: user_fields u).

Definition get_user_links (vars : value) (st : Store) : option (value * Store) :=
  match as_string (read vars "userId") with
  | Some id =>
      Some (answer_list "user"
              (match find (has_id id) (users st) with
               | Some u => [user_links_json st u]
               | None => []
               end),
            st)
  | None => None
  end.

Definition delete_user (vars : value) (st : Store) : option (value * Store) :=
  match as_string_list (read vars "userId") with
  | Some ids =>
      let doomed u := mem (user_id u) ids in
      Some (answer_list "user" (map user_json (filter doomed (users st))),
            mkStore (filter (fun u => negb (doomed u)) (users st))
                    (accounts st) (sessions st) (verificationTokens st) (next_id st))
  | None => None
  end.

Definition num_uids (n : nat) : value :=
  VObj [("numUids", VNum (Z.of_nat n))].

Definition delete_accounts_and_sessions (vars : value) (st : Store)
  : option (value * Store) :=
  match as_string_list (read vars "accountIds"),
        as_string_list (read vars "sessionTokens") with
  | Some ids, Some tokens =>
      let doomed_account a := mem (account_id a) ids in
      let doomed_session s := mem (session_sessionToken s) tokens in
      Some (VObj [("deleteAccount",
                   num_uids (List.length (filter doomed_account (accounts st))));
                  ("deleteSession",
                   num_uids (List.length (filter doomed_session (sessions st))))],
            mkStore (users st)
                    (filter (fun a => negb (doomed_account a)) (accounts st))
                    (filter (fun s => negb (doomed_session s)) (sessions st))
                    (verificationTokens st) (next_id st))
  | _, _ => None
  end.

Definition add_account (vars : value) (st : Store) : option (value * Store) :=
  match first_input vars with
  | Some input =>
      match as_string (get "provider" input),
            as_string (get "providerAccountId" input),
            as_string (read (get "user" input) "id") with
      | Some provider, Some providerAccountId, Some owner =>
          if existsb (has_id owner) (users st) then
            let a := mkAccount (fresh st) owner provider providerAccountId
                       (omit "user" (omit "providerAccountId"
                          (omit "provider" (omit "id" input)))) in
            Some (answer_list "account" [account_json a],
                  mkStore (users st) (accounts st ++ [a]) (sessions st)
                          (verificationTokens st) (S (next_id st)))
          else None
      | _, _, _ => None
      end
  | None => None
  end.

Definition delete_account (vars : value) (st : Store) : option (value * Store) :=
  match as_string (read vars "provider"), as_string (read vars "providerAccountId") with
  | Some provider, Some providerAccountId =>
      let doomed := has_pair provider providerAccountId in
      Some (answer_list "account" (map account_json (filter doomed (accounts st))),
            mkStore (users st) (filter (fun a => negb (doomed a)) (accounts st))
                    (sessions st) (verificationTokens st) (next_id st))
  | _, _ => None
  end.

Definition get_session_and_user (vars : value) (st : Store) : option (value * Store) :=
  match as_string (read vars "sessionToken") with
  | Some t =>
      Some (answer_list "getSessionAndUser"
              (map (fun s => VObj [("session", session_json s);
                                   ("user", owner_json st (session_user s))])
                   (filter (has_sessionToken t) (sessions st))),
            st)
  | None => None
  end.

Definition add_session (vars : value) (st : Store) : option (value * Store) :=
  match first_input vars with
  | Some input =>
      match as_string (get "sessionToken" input),
            as_string (read (get "user" input) "id") with
      | Some t, Some owner =>
          if existsb (has_id owner) (users st) then
            let s := mkSession (fresh st) owner t (get "expires" input) in
            Some (answer_list "session" [session_json s],
                  mkStore (users st) (accounts st) (sessions st ++ [s])
                          (verificationTokens st) (S (next_id st)))
          else None
      | _, _ => None
      end
  | None => None
  end.

Definition delete_session (vars : value) (st : Store) : option (value * Store) :=
  match as_string (read vars "sessionToken") with
  | Some t =>
      let doomed := has_sessionToken t in
      Some (answer_list "session" (map session_json (filter doomed (sessions st))),
            mkStore (users st) (accounts st)
                    (filter (fun s => negb (doomed s)) (sessions st))
                    (verificationTokens st) (next_id st))
  | None => None
  end.

Definition add_verification_token (vars : value) (st : Store) : option (value * Store) :=
  match first_input vars with
  | Some input =>
      match as_string (get "identifier" input), as_string (get "token" input) with
      | Some identifier, Some token =>
          let t := mkToken identifier token (get "expires" input) in
          Some (answer_list "verificationToken" [token_json t],
                mkStore (users st) (accounts st) (sessions st)
                        (verificationTokens st ++ [t]) (next_id st))
      | _, _ => None
      end
  | None => None
  end.

Definition delete_verification_token (vars : value) (st : Store)
  : option (value * Store) :=
  match as_string (read vars "token"), as_string (read vars "identifier") with
  | Some token, Some identifier =>
      let doomed := has_token token identifier in
      Some (answer_list "verificationToken"
              (map token_json (filter doomed (verificationTokens st))),
            mkStore (users st) (accounts st) (sessions st)
                    (filter (fun t => negb (doomed t)) (verificationTokens st))
                    (next_id st))
  | _, _ => None
  end.

Definition operation (op : Operation) : value -> Store -> option (value * Store) :=
  match op with
  | AddUser => add_user
  | GetUser => get_user
  | QueryUser => query_user
  | QueryAccount => query_account
  | UpdateUser => update_user
  | GetUserLinks => get_user_links
  | DeleteUser => delete_user
  | DeleteAccountsAndSessions => delete_accounts_and_sessions
  | AddAccount => add_account
  | DeleteAccount => delete_account
  | GetSessionAndUser => get_session_and_user
  | AddSession => add_session
  | DeleteSession => delete_session
  | AddVerificationToken => add_verification_token
  | DeleteVerificationToken => delete_verification_token
  end.

(** What the transport throws when the server rejects a request. *)
Definition rejected : exn := ClientError (VStr "rejected").

(** Modelled from the spec: the one operation of the transport client
    ([lib/client]), run a query or mutation with variables and return the
    parsed data or throw, over the store above.  A request whose variables do
    not fit its operation is rejected and changes nothing. *)
Definition request : Handler Store :=
  fun req st =>
    match operation (template (query req)) (variables req) st with
    | Some (answer, st') => (inr answer, st')
    | None => (inl rejected, st)
    end.

(** The same server behind a transport that fails on the operations [down]
    selects, before they reach the server. *)
Definition request_unless (down : Operation -> bool) : Handler Store :=
  fun req st =>
    if down (template (query req)) then (inl rejected, st) else request req st.

(** The data model identifies an account by its pair (provider,
    providerAccountId). *)
Definition accounts_identified (st : Store) : Prop :=
  forall a b,
    In a (accounts st) -> In b (accounts st) ->
    account_provider a = account_provider b ->
    account_providerAccountId a = account_providerAccountId b ->
    a = b.

End Dgraph.

(** ** Vocabulary of the properties *)

Module Shape.

(** An answer that reports no record under [key]: no answer at all, no list
    under the key, or an empty list. *)
Inductive reports_none (key : string) : value -> Prop :=
| none_null : reports_none key VNull
| none_undefined : reports_none key VUndefined
| none_no_list (o : obj) :
    get key o = VUndefined -> reports_none key (VObj o)
| none_null_list (o : obj) :
    get key o = VNull -> reports_none key (VObj o)
| none_empty_list (o : obj) :
    get key o = VArr [] -> reports_none key (VObj o).

(** An answer whose list under [key] starts with the record [r]. *)
Definition reports_first (key : string) (r : obj) (answer : value) : Prop :=
  exists o rest, answer = VObj o /\ get key o = VArr (VObj r :: rest).

(** A transport that gives the same answer to every request. *)
Definition always {S : Type} (answer : value) : Handler S :=
  fun _ s => (inr answer, s).

(** A transport whose answer depends on the template of the request only. *)
Definition answers {S : Type} (f : Operation -> value) : Handler S :=
  fun req s => (inr (f (template (query req))), s).

(** For [deleteUser]: the fetch finds a user without accounts and sessions,
    and every other request is answered with an empty list of users. *)
Definition found_then_none (op : Operation) : value :=
  match op with
  | GetUserLinks =>
      VObj [("user", VArr [VObj [("id", VStr "0x1");
                                 ("accounts", VArr []);
                                 ("sessions", VArr [])]])]
  | _ => VObj [("user", VArr [])]
  end.

(** Every request a program can issue, whatever the answers, satisfies [P]. *)
Inductive AllRequests {A : Type} (P : Request -> Prop) : Prog A -> Prop :=
| all_Ret (a : A) : AllRequests P (Ret a)
| all_Throw (e : exn) : AllRequests P (Throw e)
| all_Run (req : Request) (k : value -> Prog A) :
    P req -> (forall v, AllRequests P (k v)) -> AllRequests P (Run req k).

(** The entities whose fragment each template interpolates, in order. *)
Definition uses (op : Operation) : list Entity :=
  match op with
  | AddUser | GetUser | QueryUser | QueryAccount | UpdateUser
  | GetUserLinks | DeleteUser => [User]
  | AddAccount | DeleteAccount => [Account]
  | GetSessionAndUser => [Session; User]
  | AddSession | DeleteSession => [Session]
  | DeleteVerificationToken => [VerificationToken]
  | DeleteAccountsAndSessions | AddVerificationToken => []
  end.

(** A request interpolates the fragments [f] gives, and nothing else. *)
Definition interpolates (f : Entity -> option string) (req : Request) : Prop :=
  interpolated (query req) = map f (uses (template (query req))).

(** What [options.fragments] holds under the key [e], if the key is there. *)
Definition override_at (options : option DgraphAdapterOptions) (e : Entity)
  : option (option string) :=
  match options with
  | Some (mkOptions (Some overrides)) => overrides e
  | _ => None
  end.

(** The string the caller supplied for [e], if any. *)
Definition supplied_string (options : option DgraphAdapterOptions) (e : Entity)
  : option string :=
  match override_at options e with
  | Some (Some s) => Some s
  | _ => None
  end.

Definition entity_eqb (a b : Entity) : bool :=
  match a, b with
  | User, User | Account, Account | Session, Session
  | VerificationToken, VerificationToken => true
  | _, _ => false
  end.

(** The options with the key [e] of [fragments] set to [v], the other keys as
    they were. *)
Definition with_override (e : Entity) (v : option string)
    (options : option DgraphAdapterOptions) : option DgraphAdapterOptions :=
  Some (mkOptions (Some (fun e' => if entity_eqb e e' then Some v else override_at options e'))).

(** The statement that an entity's fragment is the string the caller supplied
    and the default when the caller supplied none. *)
Definition string_or_default (defaults : Entity -> string)
    (options : option DgraphAdapterOptions) (e : Entity) : Prop :=
  merged_fragments defaults options e =
  Some (match supplied_string options e with
        | Some str => str
        | None => defaults e
        end).

(** One invocation of every method of an adapter. *)
Definition invocations (a : Adapter) (o : obj) (str : string) : list (Prog value) :=
  [adapter_createUser a o; adapter_getUser a str; adapter_getUserByEmail a str;
   adapter_getUserByAccount a o; adapter_updateUser a o; adapter_deleteUser a str;
   adapter_linkAccount a o; adapter_unlinkAccount a o;
   adapter_getSessionAndUser a str; adapter_createSession a o;
   adapter_deleteSession a str; adapter_createVerificationToken a o;
   adapter_useVerificationToken a o].

(** [sub] occurs in [s]. *)
Definition occurs (sub s : string) : bool :=
  match String.index 0 sub s with
  | Some _ => true
  | None => false
  end.

(** The requests of [deleteUser]. *)
Definition fetch_request (f : Entity -> option string) (userId : string) : Request :=
  mkRequest (mkDocument GetUserLinks [f User]) (VObj [("userId", VStr userId)]).

Definition delete_request (f : Entity -> option string) (userId : string) : Request :=
  mkRequest (mkDocument DeleteUser [f User]) (VObj [("userId", VArr [VStr userId])]).

Definition cascade_request (accounts sessions : list obj) : Request :=
  mkRequest (mkDocument DeleteAccountsAndSessions [])
            (VObj [("accountIds", VArr (map (get "id") accounts));
                   ("sessionTokens", VArr (map (get "sessionToken") sessions))]).



(** The fetched user has an account or a session. *)
Definition linked (accounts sessions : list obj) : bool :=
  match accounts, sessions with
  | [], [] => false
  | _, _ => true
  end.

End Shape.

Import Shape.

(** ** Sample data *)

Module Sample.

Definition defaults (e : Entity) : string :=
  match e with
  | User => "fragment UserFragment on User { id email }"
  | Account => "fragment AccountFragment on Account { id provider }"
  | Session => "fragment SessionFragment on Session { id sessionToken }"
  | VerificationToken =>
      "fragment VerificationTokenFragment on VerificationToken { token }"
  end.

Definition fragments : Entity -> option string :=
  fun e => Some (defaults e).

(** [{ fragments: { User: undefined } }]. *)
Definition undefined_user : option DgraphAdapterOptions :=
  Some (mkOptions (Some (fun e => match e with
                                  | User => Some None
                                  | _ => None
                                  end))).

(** [{ fragments: { Session: "fragment SessionFragment on Session { id }" } }]. *)
Definition short_session : option DgraphAdapterOptions :=
  Some (mkOptions (Some (fun e => match e with
                                  | Session => Some (Some "fragment SessionFragment on Session { id }")
                                  | _ => None
                                  end))).

Definition ada : Dgraph.UserNode :=
  Dgraph.mkUser "1" [("email", VStr "ada@example.org")].

Definition bob : Dgraph.UserNode :=
  Dgraph.mkUser "2" [("email", VStr "bob@example.org")].

(** Two users; the first has an account and a session, the second an account;
    one verification token. *)
Definition store : Dgraph.Store :=
  Dgraph.mkStore
    [ada; bob]
    [Dgraph.mkAccount "3" "1" "github" "42" [("type", VStr "oauth")];
     Dgraph.mkAccount "5" "2" "github" "43" []]
    [Dgraph.mkSession "4" "1" "tok" (VStr "2030-01-01")]
    [Dgraph.mkToken "ada@example.org" "123456" (VStr "2030-01-01")]
    6.

(** A transport on which the cleanup request of [deleteUser] fails. *)
Definition cascade_down (op : Operation) : bool :=
  match op with
  | DeleteAccountsAndSessions => true
  | _ => false
  end.


(** [store] without the first user, whose account and session are still
    there. *)
Definition store_with_orphans : Dgraph.Store :=
  Dgraph.mkStore
    [bob]
    [Dgraph.mkAccount "3" "1" "github" "42" [("type", VStr "oauth")];
     Dgraph.mkAccount "5" "2" "github" "43" []]
    [Dgraph.mkSession "4" "1" "tok" (VStr "2030-01-01")]
    [Dgraph.mkToken "ada@example.org" "123456" (VStr "2030-01-01")]
    6.

(** A transport on which the delete of a user fails. *)
Definition delete_down (op : Operation) : bool :=
  match op with
  | DeleteUser => true
  | _ => false
  end.

(** Answers that report a user with an [id] and nothing else. *)
Definition user_without_lists (op : Operation) : value :=
  VObj [("user", VArr [VObj [("id", VStr "1")]])].

(** A store outside the data model: the two users hold accounts with the same
    pair. *)
Definition store_with_shared_pair : Dgraph.Store :=
  Dgraph.mkStore
    [ada; bob]
    [Dgraph.mkAccount "3" "1" "github" "42" [];
     Dgraph.mkAccount "5" "2" "github" "42" []]
    []
    []
    6.



(** A transport that passes the request to the server and then throws. *)
Definition applied_then_thrown : Handler Dgraph.Store :=
  fun req st => (inl Dgraph.rejected, snd (Dgraph.request req st)).

End Sample.

(** ** Vocabulary of the further properties *)

Module Behaviour.

(** A transport that throws [e] on every request and leaves the server as it
    is. *)
Definition refusing {S : Type} (e : exn) : Handler S :=
  fun _ s => (inl e, s).

(** A program issues at most [n] requests, whatever the answers. *)
Inductive AtMost {A : Type} : nat -> Prog A -> Prop :=
| most_Ret (n : nat) (a : A) : AtMost n (Ret a)
| most_Throw (n : nat) (e : exn) : AtMost n (Throw e)
| most_Run (n : nat) (req : Request) (k : value -> Prog A) :
    (forall v, AtMost n (k v)) -> AtMost (Datatypes.S n) (Run req k).

(** Two programs differ in nothing but the fragments of their documents:
    they issue the same templates with the same variables, and go on alike
    on every answer. *)
Inductive SameButText {A : Type} : Prog A -> Prog A -> Prop :=
| same_Ret (a : A) : SameButText (Ret a) (Ret a)
| same_Throw (e : exn) : SameButText (Throw e) (Throw e)
| same_Run (req req' : Request) (k k' : value -> Prog A) :
    template (query req) = template (query req') ->
    variables req = variables req' ->
    (forall v, SameButText (k v) (k' v)) ->
    SameButText (Run req k) (Run req' k').

(** What a request is apart from the fragments: its template and its
    variables. *)
Definition shape (req : Request) : Operation * value :=
  (template (query req), variables req).

(** A transport whose behaviour depends on the shape of a request only. *)
Definition reads_no_fragment {S : Type} (h : Handler S) : Prop :=
  forall req req' s, shape req = shape req' -> h req s = h req' s.

(** [null] or a truthy value: what [x || null] can be. *)
Definition null_or_truthy (v : value) : Prop :=
  v = VNull \/ truthy v = true.

(** The methods other than [deleteUser], each invoked once. *)
Definition single_request_methods (f : Entity -> option string) (o : obj)
    (str : string) : list (Prog value) :=
  [createUser f o; getUser f str; getUserByEmail f str; getUserByAccount f o;
   updateUser f o; linkAccount f o; unlinkAccount f o; getSessionAndUser f str;
   createSession f o; deleteSession f str; createVerificationToken o;
   useVerificationToken f o].

(** No user of the store has the id the store assigns next. *)
Definition next_id_unused (st : Dgraph.Store) : Prop :=
  forall u, In u (Dgraph.users st) -> Dgraph.user_id u <> Dgraph.fresh st.

(** Each method other than [createSession], with the request it starts
    with. *)
Definition first_requests (f : Entity -> option string) (o : obj) (str : string)
  : list (Prog value * Request) :=
  [(createUser f o,
    mkRequest (mkDocument AddUser [f User])
              (VObj [("input", VArr [VObj (omit "id" o)])]));
   (getUser f str,
    mkRequest (mkDocument GetUser [f User]) (VObj [("id", VStr str)]));
   (getUserByEmail f str,
    mkRequest (mkDocument QueryUser [f User]) (VObj [("email", VStr str)]));
   (getUserByAccount f o,
    mkRequest (mkDocument QueryAccount [f User])
              (VObj [("providerAccountId", get "providerAccountId" o);
                     ("provider", get "provider" o)]));
   (updateUser f o,
    mkRequest (mkDocument UpdateUser [f User])
              (VObj [("id", get "id" o); ("input", VObj (omit "id" o))]));
   (deleteUser f str, fetch_request f str);
   (linkAccount f o,
    mkRequest (mkDocument AddAccount [f Account])
              (VObj [("input",
                      VArr [VObj (set "user" (VObj [("id", get "userId" o)])
                                      (omit "userId" (omit "id" o)))])]));
   (unlinkAccount f o,
    mkRequest (mkDocument DeleteAccount [f Account])
              (VObj [("providerAccountId", get "providerAccountId" o);
                     ("provider", get "provider" o)]));
   (getSessionAndUser f str,
    mkRequest (mkDocument GetSessionAndUser [f Session; f User])
              (VObj [("sessionToken", VStr str)]));
   (deleteSession f str,
    mkRequest (mkDocument DeleteSession [f Session])
              (VObj [("sessionToken", VStr str)]));
   (createVerificationToken o,
    mkRequest (mkDocument AddVerificationToken [])
              (VObj [("input", VArr [VObj o])]));
   (useVerificationToken f o,
    mkRequest (mkDocument DeleteVerificationToken [f VerificationToken]) (VObj o))].

(** The request of [createSession]. *)
Definition createSession_request (f : Entity -> option string) (o : obj) : Request :=
  mkRequest (mkDocument AddSession [f Session])
            (VObj [("input",
                    VArr [VObj [("sessionToken", get "sessionToken" o);
                                ("expires", get "expires" o);
                                ("user", VObj [("id", get "userId" o)])]])]).

End Behaviour.

Import Behaviour.

(** * Properties *)

(** ** Executions *)

Section Executions.

Context {S : Type} (h : Handler S).

Lemma exec_run (q : Document) (vars : value) (s : S) :
  exec h (run q vars) s =
  match h (mkRequest q vars) s with
  | (inl e, s') => mkExecution [mkRequest q vars] (Thrown e) s'
  | (inr v, s') => mkExecution [mkRequest q vars] (Returned v) s'
  end.
Proof.
  unfold run. simpl. destruct (h _ s) as [[e | v] s']; reflexivity.
Qed.

(** Executing [p] and then [f] on its result. *)
Lemma exec_bind {A B : Type} (p : Prog A) (f : A -> Prog B) (s : S) :
  exec h (bind p f) s =
  match outcome (exec h p s) with
  | Returned a =>
      let r := exec h (f a) (final (exec h p s)) in
      mkExecution (calls (exec h p s) ++ calls r) (outcome r) (final r)
  | Thrown e => mkExecution (calls (exec h p s)) (Thrown e) (final (exec h p s))
  end.
Proof.
  revert s. induction p as [a | e | req k IH]; intros s; simpl.
  - destruct (exec h (f a) s); reflexivity.
  - reflexivity.
  - destruct (h req s) as [[e | v] s']; simpl; [reflexivity |].
    rewrite IH. destruct (outcome (exec h (k v) s')); reflexivity.
Qed.

End Executions.

(** ** Answers *)

Lemma first_of_none (key : string) (answer : value) :
  reports_none key answer ->
  opt_index (opt_member answer key) 0 = VUndefined.
Proof.
  intros [ | | o H | o H | o H]; unfold opt_member; simpl; try rewrite H; reflexivity.
Qed.

Lemma first_of_some (key : string) (r : obj) (answer : value) :
  reports_first key r answer ->
  opt_index (opt_member answer key) 0 = VObj r.
Proof.
  intros (o & rest & -> & H). unfold opt_member. simpl. rewrite H. reflexivity.
Qed.

Lemma lookup_omit (k : string) (o : obj) : lookup k (omit k o) = None.
Proof.
  induction o as [| [k' v] o IH]; simpl; [reflexivity |].
  destruct (String.eqb k k') eqn:E; simpl; [exact IH |].
  rewrite E. exact IH.
Qed.

(** ** createSession *)

(** C4.  When the argument of [createSession] has no [userId] (the property is
    absent or [undefined]), the method throws its own error and the transport
    receives no call, whatever the transport is and whatever else the
    argument holds; the server's state is untouched. *)
Theorem createSession_undefined_userId_no_call :
  forall (S : Type) (h : Handler S) (fr : Entity -> option string)
         (session : obj) (s : S),
    get "userId" session = VUndefined ->
    exec h (createSession fr session) s =
    mkExecution [] (Thrown (Error "userId is undefined in createSession")) s.
Proof.
  intros S h fr session s H. unfold createSession. rewrite H. reflexivity.
Qed.

Lemma createSession_undefined_userId_no_call_witness :
  get "userId" [("sessionToken", VStr "t"); ("expires", VStr "2030-01-01")] = VUndefined
  /\ exec Dgraph.request
          (createSession (fun _ => Some "fragment")
             [("sessionToken", VStr "t"); ("expires", VStr "2030-01-01")])
          Dgraph.empty
     = mkExecution [] (Thrown (Error "userId is undefined in createSession")) Dgraph.empty.
Proof.
  split; [reflexivity |].
  apply (createSession_undefined_userId_no_call Dgraph.Store Dgraph.request).
  reflexivity.
Defined.

(** With a [userId], the first thing [createSession] does is its request. *)
Lemma createSession_defined_userId_calls (S : Type) (h : Handler S)
    (fr : Entity -> option string) (session : obj) (s : S) :
  get "userId" session <> VUndefined ->
  exists rest,
    calls (exec h (createSession fr session) s) =
    mkRequest (mkDocument AddSession [fr Session])
      (VObj [("input",
              VArr [VObj [("sessionToken", get "sessionToken" session);
                          ("expires", get "expires" session);
                          ("user", VObj [("id", get "userId" session)])]])])
    :: rest.
Proof.
  intros H. unfold createSession.
  destruct (get "userId" session) eqn:E; try congruence; simpl;
    match goal with
    | |- context [h ?r s] => destruct (h r s) as [[e | v] s']
    end; eexists; reflexivity.
Qed.

(** ** createUser *)

(** The [id] of the caller's object never reaches the transport. *)
Lemma createUser_strips_id (S : Type) (h : Handler S)
    (fr : Entity -> option string) (user : obj) (s : S) :
  exists input rest,
    calls (exec h (createUser fr user) s) =
    mkRequest (mkDocument AddUser [fr User]) (VObj [("input", VArr [VObj input])]) :: rest
    /\ rest = []
    /\ lookup "id" input = None.
Proof.
  exists (omit "id" user), []. split; [| split; [reflexivity | apply lookup_omit]].
  unfold createUser, run, por, member, index. simpl.
  destruct (h _ s) as [[e | v] s']; simpl; [reflexivity |].
  repeat match goal with
         | |- context [if ?c then _ else _] => destruct c; simpl
         end; reflexivity.
Qed.

Lemma createUser_returns_first (S : Type) (h : Handler S)
    (fr : Entity -> option string) (user r : obj) (answer : value) (s s' : S) :
  h (mkRequest (mkDocument AddUser [fr User])
       (VObj [("input", VArr [VObj (omit "id" user)])])) s = (inr answer, s') ->
  reports_first "user" r answer ->
  outcome (exec h (createUser fr user) s) = Returned (VObj r).
Proof.
  intros Hh (o & rest & -> & Hr).
  unfold createUser, run, por, member, index. simpl.
  rewrite Hh. simpl. rewrite Hr. reflexivity.
Qed.

Lemma createUser_throws_without_list (S : Type) (h : Handler S)
    (fr : Entity -> option string) (user : obj) (answer : value) (s s' : S) :
  h (mkRequest (mkDocument AddUser [fr User])
       (VObj [("input", VArr [VObj (omit "id" user)])])) s = (inr answer, s') ->
  truthy answer = false \/ truthy (read answer "user") = false ->
  outcome (exec h (createUser fr user) s) = Thrown (Error "Failed to create user").
Proof.
  intros Hh Hnone.
  unfold createUser, run, por, member, index. simpl.
  rewrite Hh. simpl.
  destruct (truthy answer) eqn:Et; simpl; [| reflexivity].
  destruct Hnone as [Hn | Hn]; [congruence |].
  destruct (nullish answer) eqn:En.
  - destruct answer; simpl in *; congruence.
  - simpl. rewrite Hn. reflexivity.
Qed.

(** C5.  When the server answers the insert of [createUser] with an empty
    list of created users, the method does not throw: it returns
    [undefined].  (The caller's [id] is stripped and the first created record
    is returned, as the lemmas above show; only the check for a missing
    record tests the list and not its first element.) *)
Theorem createUser_empty_list_returns_undefined :
  forall (S : Type) (fr : Entity -> option string) (user : obj) (s : S),
    exec (always (VObj [("user", VArr [])])) (createUser fr user) s =
    mkExecution
      [mkRequest (mkDocument AddUser [fr User])
                 (VObj [("input", VArr [VObj (omit "id" user)])])]
      (Returned VUndefined) s.
Proof. intros S fr user s. reflexivity. Qed.

(** ** Reads that find nothing, writes that produce nothing *)

Ltac answered :=
  unfold run, por, member, index, always, answers; simpl.

(** [getUser] hands the answer of the transport over as it is: [null] when the
    server found no user. *)
Lemma getUser_returns_answer (S : Type) (fr : Entity -> option string)
    (id : string) (answer : value) (s : S) :
  exec (always answer) (getUser fr id) s =
  mkExecution [mkRequest (mkDocument GetUser [fr User]) (VObj [("id", VStr id)])]
              (Returned answer) s.
Proof. reflexivity. Qed.

Lemma getUserByEmail_not_found (S : Type) (fr : Entity -> option string)
    (email : string) (answer : value) (s : S) :
  reports_none "user" answer ->
  outcome (exec (always answer) (getUserByEmail fr email) s) = Returned VNull.
Proof.
  intros H. unfold getUserByEmail. answered.
  rewrite (first_of_none _ _ H). reflexivity.
Qed.

Lemma getUserByEmail_found (S : Type) (fr : Entity -> option string)
    (email : string) (r : obj) (answer : value) (s : S) :
  reports_first "user" r answer ->
  outcome (exec (always answer) (getUserByEmail fr email) s) = Returned (VObj r).
Proof.
  intros H. unfold getUserByEmail. answered.
  rewrite (first_of_some _ _ _ H). reflexivity.
Qed.

(** No answer, an empty list of accounts, or a first account without user. *)
Lemma getUserByAccount_not_found (S : Type) (fr : Entity -> option string)
    (account : obj) (answer : value) (s : S) :
  answer = VNull \/ answer = VUndefined \/ answer = VArr []
  \/ (exists a rest, answer = VArr (VObj a :: rest) /\ nullish (get "user" a) = true) ->
  outcome (exec (always answer) (getUserByAccount fr account) s) = Returned VNull.
Proof.
  intros [-> | [-> | [-> | (a & rest & -> & H)]]]; try reflexivity.
  unfold getUserByAccount. answered. unfold opt_member. simpl.
  destruct (get "user" a); simpl in H; try discriminate; reflexivity.
Qed.

Lemma getSessionAndUser_not_found (S : Type) (fr : Entity -> option string)
    (sessionToken : string) (answer : value) (s : S) :
  reports_none "getSessionAndUser" answer ->
  outcome (exec (always answer) (getSessionAndUser fr sessionToken) s) = Returned VNull.
Proof.
  intros H. unfold getSessionAndUser. answered.
  rewrite (first_of_none _ _ H). reflexivity.
Qed.

Lemma updateUser_no_record (S : Type) (fr : Entity -> option string)
    (user : obj) (answer : value) (s : S) :
  reports_none "user" answer ->
  outcome (exec (always answer) (updateUser fr user) s) =
  Thrown (Error "Failed to update user").
Proof.
  intros H. unfold updateUser. answered.
  rewrite (first_of_none _ _ H). reflexivity.
Qed.

Lemma linkAccount_no_record (S : Type) (fr : Entity -> option string)
    (account : obj) (answer : value) (s : S) :
  reports_none "account" answer ->
  outcome (exec (always answer) (linkAccount fr account) s) =
  Thrown (Error "Failed to link account").
Proof.
  intros H. unfold linkAccount. answered.
  rewrite (first_of_none _ _ H). reflexivity.
Qed.

Lemma createSession_no_record (S : Type) (fr : Entity -> option string)
    (session : obj) (answer : value) (s : S) :
  get "userId" session <> VUndefined ->
  reports_none "session" answer ->
  outcome (exec (always answer) (createSession fr session) s) =
  Thrown (Error "Failed to create session").
Proof.
  intros Hid H. unfold createSession.
  destruct (get "userId" session) eqn:E; try congruence; answered;
    rewrite (first_of_none _ _ H); reflexivity.
Qed.

Lemma createVerificationToken_no_record (S : Type)
    (input : obj) (answer : value) (s : S) :
  reports_none "verificationToken" answer ->
  outcome (exec (always answer) (createVerificationToken input) s) =
  Thrown (Error "Failed to create verification token").
Proof.
  intros H. unfold createVerificationToken. answered.
  rewrite (first_of_none _ _ H). reflexivity.
Qed.

(** [createUser] throws when there is no answer or no list in it. *)
Lemma createUser_no_record (S : Type) (fr : Entity -> option string)
    (user : obj) (answer : value) (s : S) :
  reports_none "user" answer ->
  (forall o, answer = VObj o -> get "user" o <> VArr []) ->
  outcome (exec (always answer) (createUser fr user) s) =
  Thrown (Error "Failed to create user").
Proof.
  intros H Hne.
  destruct H as [ | | o H | o H | o H]; try reflexivity.
  - unfold createUser. answered. rewrite H. reflexivity.
  - unfold createUser. answered. rewrite H. reflexivity.
  - exfalso. exact (Hne o eq_refl H).
Qed.

(** C6.  On an answer whose list of records is empty, the writes that check
    the first record of the list throw their error ([updateUser],
    [linkAccount], [createSession], [createVerificationToken] and the delete
    step of [deleteUser]), and [createUser], which checks the list, returns
    [undefined] instead of throwing.  (The reads return [null] when nothing
    is found, as the lemmas above show.) *)
Theorem empty_list_throws_except_in_createUser :
  forall (S : Type) (fr : Entity -> option string) (o : obj) (uid : string) (s : S),
    outcome (exec (always (VObj [("user", VArr [])])) (updateUser fr o) s)
    = Thrown (Error "Failed to update user")
    /\ outcome (exec (always (VObj [("account", VArr [])])) (linkAccount fr o) s)
       = Thrown (Error "Failed to link account")
    /\ outcome (exec (always (VObj [("session", VArr [])]))
                     (createSession fr (("userId", VStr uid) :: o)) s)
       = Thrown (Error "Failed to create session")
    /\ outcome (exec (always (VObj [("verificationToken", VArr [])]))
                     (createVerificationToken o) s)
       = Thrown (Error "Failed to create verification token")
    /\ outcome (exec (answers found_then_none) (deleteUser fr uid) s)
       = Thrown (Error "Failed to delete user")
    /\ outcome (exec (always (VObj [("user", VArr [])])) (createUser fr o) s)
       = Returned VUndefined.
Proof.
  intros S fr o uid s. repeat split; reflexivity.
Qed.

(** ** getSessionAndUser *)

Ltac split_ifs :=
  repeat match goal with
         | |- context [if ?c then _ else _] => destruct c eqn:?; simpl
         end.

(** C7.  [getSessionAndUser] issues one request, the join of the session and
    its user filtered by the session token.  It returns [null] when the
    answer reports no session and when the first pair of the answer lacks its
    user or its session; when both are there it returns the pair. *)
Theorem getSessionAndUser_null_or_pair :
  forall (S : Type) (h : Handler S) (fr : Entity -> option string)
         (sessionToken : string) (answer : value) (s s' : S),
    h (mkRequest (mkDocument GetSessionAndUser [fr Session; fr User])
                 (VObj [("sessionToken", VStr sessionToken)])) s
    = (inr answer, s') ->
    calls (exec h (getSessionAndUser fr sessionToken) s)
    = [mkRequest (mkDocument GetSessionAndUser [fr Session; fr User])
                 (VObj [("sessionToken", VStr sessionToken)])]
    /\ final (exec h (getSessionAndUser fr sessionToken) s) = s'
    /\ occurs "getSessionAndUser(filter: { sessionToken: { eq: $sessionToken } })"
              (hd "" (strings GetSessionAndUser)) = true
    /\ (reports_none "getSessionAndUser" answer ->
        outcome (exec h (getSessionAndUser fr sessionToken) s) = Returned VNull)
    /\ (forall pair,
          reports_first "getSessionAndUser" pair answer ->
          (nullish (get "user" pair) = true \/ nullish (get "session" pair) = true ->
           outcome (exec h (getSessionAndUser fr sessionToken) s) = Returned VNull)
          /\ (forall u se,
                get "user" pair = VObj u -> get "session" pair = VObj se ->
                outcome (exec h (getSessionAndUser fr sessionToken) s)
                = Returned (VObj pair))).
Proof.
  intros S h fr sessionToken answer s s' H.
  unfold getSessionAndUser, run, por, member. simpl. rewrite H. simpl.
  split; [| split; [| split; [reflexivity | split]]].
  - split_ifs; reflexivity.
  - split_ifs; reflexivity.
  - intros Hn. rewrite (first_of_none _ _ Hn). reflexivity.
  - intros pair Hp. rewrite (first_of_some _ _ _ Hp). simpl. split.
    + intros [Hu | Hs].
      * destruct (get "user" pair); simpl in Hu; try discriminate; reflexivity.
      * destruct (get "session" pair); simpl in Hs; try discriminate;
          destruct (truthy (get "user" pair)); reflexivity.
    + intros u se Hu Hs. rewrite Hu, Hs. reflexivity.
Qed.

Lemma getSessionAndUser_null_or_pair_witness :
  outcome (exec Dgraph.request (getSessionAndUser Sample.fragments "tok") Sample.store)
  = Returned (VObj [("session", Dgraph.session_json
                                  (Dgraph.mkSession "4" "1" "tok" (VStr "2030-01-01")));
                    ("user", Dgraph.user_json Sample.ada)])
  /\ outcome (exec Dgraph.request (getSessionAndUser Sample.fragments "gone") Sample.store)
     = Returned VNull.
Proof.
  split.
  - destruct (getSessionAndUser_null_or_pair Dgraph.Store Dgraph.request
                Sample.fragments "tok" _ Sample.store Sample.store eq_refl)
      as (_ & _ & _ & _ & Hpair).
    eapply (fun Hp => proj2 (Hpair _ Hp)); [| reflexivity | reflexivity].
    eexists _, _. split; reflexivity.
  - destruct (getSessionAndUser_null_or_pair Dgraph.Store Dgraph.request
                Sample.fragments "gone" _ Sample.store Sample.store eq_refl)
      as (_ & _ & _ & Hnone & _).
    apply Hnone. apply none_empty_list. reflexivity.
Defined.

(** ** unlinkAccount *)



(** ** deleteUser *)

Lemma mapM_member (k : string) (l : list obj) :
  mapM (fun x => member x k) (map VObj l) = Ret (map (get k) l).
Proof.
  induction l as [| o l IH]; simpl; [reflexivity |].
  rewrite IH. reflexivity.
Qed.

Lemma linked_spec (accounts sessions : list obj) :
  linked accounts sessions = true <-> accounts <> [] \/ sessions <> [].
Proof.
  destruct accounts, sessions; simpl; split; intros H;
    try reflexivity; try discriminate;
    try (left; discriminate); try (right; discriminate).
  destruct H as [H | H]; congruence.
Qed.

(** [deleteUser] from the point where the user was fetched and deleted. *)
Lemma deleteUser_after_delete (S : Type) (h : Handler S)
    (fr : Entity -> option string) (userId : string)
    (found deleted : value) (user record : obj) (accounts sessions : list obj)
    (s s1 s2 : S) :
  h (fetch_request fr userId) s = (inr found, s1) ->
  reports_first "user" user found ->
  h (delete_request fr userId) s1 = (inr deleted, s2) ->
  reports_first "user" record deleted ->
  get "accounts" user = VArr (map VObj accounts) ->
  get "sessions" user = VArr (map VObj sessions) ->
  exec h (deleteUser fr userId) s =
  if linked accounts sessions then
    match h (cascade_request accounts sessions) s2 with
    | (inl e, s3) =>
        mkExecution [fetch_request fr userId; delete_request fr userId;
                     cascade_request accounts sessions] (Thrown e) s3
    | (inr _, s3) =>
        mkExecution [fetch_request fr userId; delete_request fr userId;
                     cascade_request accounts sessions] (Returned (VObj record)) s3
    end
  else
    mkExecution [fetch_request fr userId; delete_request fr userId]
                (Returned (VObj record)) s2.
Proof.
  unfold fetch_request, delete_request, cascade_request.
  intros Hfetch Hu Hdelete Hr Ha Hs.
  unfold deleteUser, run. simpl. rewrite Hfetch. simpl.
  rewrite (first_of_some _ _ _ Hu). simpl.
  rewrite Hdelete. simpl. rewrite (first_of_some _ _ _ Hr). simpl.
  unfold por. simpl. rewrite Ha, Hs. simpl.
  destruct accounts as [| a accounts]; simpl.
  - destruct sessions as [| se sessions]; simpl; [reflexivity |].
    rewrite mapM_member. simpl.
    destruct (h _ s2) as [[e | v] s3]; reflexivity.
  - rewrite !mapM_member. simpl.
    destruct (h _ s2) as [[e | v] s3]; reflexivity.
Qed.

Lemma deleteUser_not_found (S : Type) (h : Handler S)
    (fr : Entity -> option string) (userId : string) (found : value) (s s1 : S) :
  h (fetch_request fr userId) s = (inr found, s1) ->
  reports_none "user" found ->
  exec h (deleteUser fr userId) s =
  mkExecution [fetch_request fr userId] (Returned VNull) s1.
Proof.
  unfold fetch_request. intros Hfetch Hnone.
  unfold deleteUser, run. simpl. rewrite Hfetch. simpl.
  rewrite (first_of_none _ _ Hnone). reflexivity.
Qed.


(** [getUser] hands over the answer to the root field [getUser] as the user
    record, and [deleteUser] looks for the record under [user] in the answer
    to the same root field: on an answer that is the record itself, with no
    property [user], [deleteUser] finds no user and stops after the fetch. *)
Lemma deleteUser_on_bare_record (S : Type) (fr : Entity -> option string)
    (userId : string) (record : obj) (s : S) :
  get "user" record = VUndefined ->
  exec (always (VObj record)) (getUser fr userId) s
  = mkExecution [mkRequest (mkDocument GetUser [fr User]) (VObj [("id", VStr userId)])]
                (Returned (VObj record)) s
  /\ exec (always (VObj record)) (deleteUser fr userId) s
     = mkExecution [fetch_request fr userId] (Returned VNull) s.
Proof.
  intros H. split; [reflexivity |].
  apply (deleteUser_not_found S (always (VObj record)) fr userId (VObj record) s s);
    [reflexivity |].
  apply none_no_list. exact H.
Qed.



(** C9.  When the third request of [deleteUser] throws, the method throws the
    same error and returns no record.  The requests made are the fetch, the
    delete of the user and the failed cleanup, in this order and nothing
    after: the server is left in the state that followed the delete of the
    user, which no request undoes. *)
Theorem deleteUser_cascade_error_after_delete :
  forall (S : Type) (h : Handler S) (fr : Entity -> option string)
         (userId : string) (found deleted : value) (user record : obj)
         (accounts sessions : list obj) (err : exn) (s s1 s2 s3 : S),
    h (fetch_request fr userId) s = (inr found, s1) ->
    reports_first "user" user found ->
    h (delete_request fr userId) s1 = (inr deleted, s2) ->
    reports_first "user" record deleted ->
    get "accounts" user = VArr (map VObj accounts) ->
    get "sessions" user = VArr (map VObj sessions) ->
    accounts <> [] \/ sessions <> [] ->
    h (cascade_request accounts sessions) s2 = (inl err, s3) ->
    exec h (deleteUser fr userId) s =
    mkExecution [fetch_request fr userId; delete_request fr userId;
                 cascade_request accounts sessions] (Thrown err) s3.
Proof.
  intros S h fr userId found deleted user record accounts sessions err s s1 s2 s3
         Hfetch Hu Hdelete Hr Ha Hs Hl Hc.
  rewrite (deleteUser_after_delete S h fr userId found deleted user record
             accounts sessions s s1 s2 Hfetch Hu Hdelete Hr Ha Hs).
  apply linked_spec in Hl. rewrite Hl, Hc. reflexivity.
Qed.

Lemma deleteUser_cascade_error_after_delete_witness :
  exec (Dgraph.request_unless Sample.cascade_down)
       (deleteUser Sample.fragments "1") Sample.store
  = mkExecution
      [fetch_request Sample.fragments "1"; delete_request Sample.fragments "1";
       cascade_request [[("id", VStr "3")]] [[("sessionToken", VStr "tok")]]]
      (Thrown Dgraph.rejected) Sample.store_with_orphans
  /\ outcome (exec Dgraph.request (getUser Sample.fragments "1") Sample.store_with_orphans)
     = Returned VNull
  /\ outcome (exec Dgraph.request (getUser Sample.fragments "1") Sample.store)
     = Returned (Dgraph.user_json Sample.ada).
Proof.
  split; [| split; reflexivity].
  refine (deleteUser_cascade_error_after_delete Dgraph.Store
            (Dgraph.request_unless Sample.cascade_down) Sample.fragments "1"
            _ _ (("id", VStr "1") :: _) (("id", VStr "1") :: Dgraph.user_fields Sample.ada)
            [[("id", VStr "3")]] [[("sessionToken", VStr "tok")]]
            Dgraph.rejected Sample.store Sample.store _ _
            eq_refl (ex_intro _ _ (ex_intro _ _ (conj eq_refl eq_refl)))
            eq_refl (ex_intro _ _ (ex_intro _ _ (conj eq_refl eq_refl)))
            eq_refl eq_refl (or_introl _) eq_refl).
  discriminate.
Defined.

(** ** Fragments *)

Section Requests.

Context {A : Type} (P : Request -> Prop).

Lemma AllRequests_bind {B : Type} (p : Prog B) (f : B -> Prog A) :
  AllRequests P p -> (forall b, AllRequests P (f b)) -> AllRequests P (bind p f).
Proof.
  intros Hp Hf. induction Hp as [b | e | req k Hreq Hk IH]; simpl.
  - apply Hf.
  - apply all_Throw.
  - apply all_Run; [exact Hreq | exact IH].
Qed.

Lemma AllRequests_exec {S : Type} (h : Handler S) (p : Prog A) (s : S) :
  AllRequests P p -> Forall P (calls (exec h p s)).
Proof.
  intros Hp. revert s. induction Hp as [a | e | req k Hreq Hk IH]; intros s; simpl.
  - constructor.
  - constructor.
  - destruct (h req s) as [[e | v] s']; simpl.
    + constructor; [exact Hreq | constructor].
    + constructor; [exact Hreq | apply IH].
Qed.

End Requests.

Lemma AllRequests_mapM (P : Request -> Prop) (f : value -> Prog value) (xs : list value) :
  (forall x, AllRequests P (f x)) -> AllRequests P (mapM f xs).
Proof.
  intros Hf. induction xs as [| x xs IH]; simpl.
  - apply all_Ret.
  - apply AllRequests_bind; [apply Hf |]. intros y.
    apply AllRequests_bind; [exact IH |]. intros ys. apply all_Ret.
Qed.

Ltac requests :=
  repeat first
    [ apply all_Ret
    | apply all_Throw
    | apply all_Run; [reflexivity | intros ?]
    | apply AllRequests_bind; [| intros ?]
    | apply AllRequests_mapM; intros ?
    | progress unfold run, member, index, por, array_map
    | match goal with
      | |- AllRequests _ (if ?c then _ else _) => destruct c
      | |- AllRequests _ (match ?v with _ => _ end) => destruct v
      end ].

(** Every request of every method interpolates the fragments the adapter was
    built with, at the places of its template. *)
Lemma methods_interpolate (fr : Entity -> option string) (o : obj) (str : string) :
  Forall (AllRequests (interpolates fr))
    [createUser fr o; getUser fr str; getUserByEmail fr str;
     getUserByAccount fr o; updateUser fr o; deleteUser fr str;
     linkAccount fr o; unlinkAccount fr o; getSessionAndUser fr str;
     createSession fr o; deleteSession fr str; createVerificationToken o;
     useVerificationToken fr o].
Proof.
  repeat (apply Forall_cons || apply Forall_nil).
  all: unfold createUser, getUser, getUserByEmail, getUserByAccount, updateUser,
         deleteUser, linkAccount, unlinkAccount, getSessionAndUser, createSession,
         deleteSession, createVerificationToken, useVerificationToken;
       cbv zeta; requests.
Qed.

(** C10.  The fragment of an entity is what [options.fragments] holds under
    the entity's key when the key is there (the caller's string, or
    [undefined] for a key set to [undefined]), and the default fragment when
    the key, [fragments] or [options] is absent.  Setting the key of one
    entity leaves the fragment of every other entity as it was.  Every
    request of every method interpolates these fragments, each at the places
    of its entity. *)
Theorem fragment_is_override_or_default :
  forall (defaults : Entity -> string) (options : option DgraphAdapterOptions)
         (e : Entity),
    (forall str, override_at options e = Some (Some str) ->
                 merged_fragments defaults options e = Some str)
    /\ (override_at options e = Some None ->
        merged_fragments defaults options e = None)
    /\ (override_at options e = None ->
        merged_fragments defaults options e = Some (defaults e))
    /\ (forall e' v, e' <> e ->
          merged_fragments defaults (with_override e' v options) e
          = merged_fragments defaults options e)
    /\ (forall v, merged_fragments defaults (with_override e v options) e = v)
    /\ (forall (o : obj) (str : string) (p : Prog value),
          In p (invocations (DgraphAdapter defaults options) o str) ->
          forall (S : Type) (h : Handler S) (s : S),
            Forall (interpolates (merged_fragments defaults options))
                   (calls (exec h p s))).
Proof.
  intros defaults options e.
  assert (Hm : merged_fragments defaults options e
               = spread (Some (defaults e)) (override_at options e)).
  { unfold merged_fragments, override_at.
    destruct options as [[[overrides |]] |]; reflexivity. }
  repeat split.
  - intros str H. rewrite Hm, H. reflexivity.
  - intros H. rewrite Hm, H. reflexivity.
  - intros H. rewrite Hm, H. reflexivity.
  - intros e' v Hne. rewrite Hm. unfold with_override, merged_fragments.
    destruct e, e'; simpl; try reflexivity; congruence.
  - intros v. unfold with_override, merged_fragments. destruct e; reflexivity.
  - intros o str p Hin S h s. apply AllRequests_exec.
    pose proof (methods_interpolate (merged_fragments defaults options) o str) as Hall.
    rewrite Forall_forall in Hall. apply Hall. exact Hin.
Qed.

Lemma fragment_is_override_or_default_witness :
  merged_fragments Sample.defaults Sample.short_session Session
  = Some "fragment SessionFragment on Session { id }"
  /\ merged_fragments Sample.defaults Sample.short_session User
     = Some (Sample.defaults User)
  /\ merged_fragments Sample.defaults Sample.undefined_user User = None.
Proof.
  split; [| split].
  - exact (proj1 (fragment_is_override_or_default
                    Sample.defaults Sample.short_session Session) _ eq_refl).
  - exact (proj1 (proj2 (proj2 (fragment_is_override_or_default
                                  Sample.defaults Sample.short_session User))) eq_refl).
  - exact (proj1 (proj2 (fragment_is_override_or_default
                           Sample.defaults Sample.undefined_user User)) eq_refl).
Defined.

(** C10, as stated, fails when a key of [options.fragments] is set to
    [undefined]: the caller supplied no string, and the fragment is not the
    default but [undefined], which the template literal writes as the word
    [undefined] into the document. *)
Lemma fragment_undefined_counterexample :
  supplied_string Sample.undefined_user User = None
  /\ ~ string_or_default Sample.defaults Sample.undefined_user User
  /\ calls (exec (always VNull)
                 (adapter_getUser (DgraphAdapter Sample.defaults Sample.undefined_user) "1")
                 tt)
     = [mkRequest (mkDocument GetUser [None]) (VObj [("id", VStr "1")])]
  /\ occurs "undefined" (text (mkDocument GetUser [None])) = true
  /\ occurs (Sample.defaults User) (text (mkDocument GetUser [None])) = false.
Proof.
  split; [reflexivity |]. split; [| repeat split].
  unfold string_or_default. simpl. discriminate.
Qed.

(** ** The adapter on the reference backend *)

Section Lists.

Context {A : Type} (p : A -> bool).




Lemma filter_nil_of_all (l : list A) :
  (forall x, In x l -> p x = false) -> filter p l = [].
Proof.
  induction l as [| z l IH]; simpl; [reflexivity |].
  intros H. rewrite (H z (or_introl eq_refl)). apply IH.
  intros x Hx. apply H. right. exact Hx.
Qed.


End Lists.



(** *** useVerificationToken *)

Lemma useVerificationToken_answered (S : Type) (h : Handler S)
    (fr : Entity -> option string) (params : obj) (answer : value) (s s' : S) :
  h (mkRequest (mkDocument DeleteVerificationToken [fr VerificationToken])
               (VObj params)) s = (inr answer, s') ->
  exec h (useVerificationToken fr params) s =
  mkExecution
    [mkRequest (mkDocument DeleteVerificationToken [fr VerificationToken]) (VObj params)]
    (Returned (or_else (opt_index (opt_member answer "verificationToken") 0) VNull)) s'.
Proof.
  intros H. unfold useVerificationToken, run. simpl. rewrite H. reflexivity.
Qed.

Lemma request_delete_verification_token (f : list (option string))
    (params : obj) (identifier token : string) (st : Dgraph.Store) :
  get "identifier" params = VStr identifier ->
  get "token" params = VStr token ->
  Dgraph.request (mkRequest (mkDocument DeleteVerificationToken f) (VObj params)) st =
  (inr (Dgraph.answer_list "verificationToken"
          (map Dgraph.token_json
               (filter (Dgraph.has_token token identifier)
                       (Dgraph.verificationTokens st)))),
   Dgraph.mkStore (Dgraph.users st) (Dgraph.accounts st) (Dgraph.sessions st)
     (filter (fun t => negb (Dgraph.has_token token identifier t))
             (Dgraph.verificationTokens st))
     (Dgraph.next_id st)).
Proof.
  intros Hi Ht. unfold Dgraph.request. simpl.
  unfold Dgraph.delete_verification_token. simpl. rewrite Hi, Ht. reflexivity.
Qed.



(** *** deleteUser *)








Lemma getUser_on_backend (fr : Entity -> option string) (uid : string)
    (st : Dgraph.Store) :
  exec Dgraph.request (getUser fr uid) st =
  mkExecution [mkRequest (mkDocument GetUser [fr User]) (VObj [("id", VStr uid)])]
              (Returned (Dgraph.owner_json st uid)) st.
Proof. reflexivity. Qed.

Lemma getUserByAccount_on_backend (fr : Entity -> option string)
    (provider providerAccountId : string) (st : Dgraph.Store) :
  outcome (exec Dgraph.request
             (getUserByAccount fr [("provider", VStr provider);
                                   ("providerAccountId", VStr providerAccountId)])
             st)
  = Returned
      (or_else
         (opt_member
            (opt_index
               (VArr (map (fun a => VObj [("user", Dgraph.owner_json st (Dgraph.account_user a))])
                          (filter (Dgraph.has_pair provider providerAccountId)
                                  (Dgraph.accounts st))))
               0)
            "user")
         VNull).
Proof. reflexivity. Qed.




(** A store whose accounts are identified by their pairs meets the condition
    under which [getUserByAccount] returns [null] after [deleteUser]. *)
Lemma identified_accounts_share_owner (st : Dgraph.Store) (a b : Dgraph.AccountNode) :
  Dgraph.accounts_identified st ->
  In a (Dgraph.accounts st) -> In b (Dgraph.accounts st) ->
  Dgraph.account_provider b = Dgraph.account_provider a ->
  Dgraph.account_providerAccountId b = Dgraph.account_providerAccountId a ->
  Dgraph.account_user b = Dgraph.account_user a.
Proof.
  intros Hunique Ha Hb Hp Hq. rewrite (Hunique b a Hb Ha Hp Hq). reflexivity.
Qed.

(** The condition on the pairs is needed: in a store where two users hold
    accounts with the same pair, the pair leads to the other user once the
    first is deleted. *)
Lemma shared_pair_leads_to_other_user :
  outcome (exec Dgraph.request
             (getUserByAccount Sample.fragments
                [("provider", VStr "github"); ("providerAccountId", VStr "42")])
             (final (exec Dgraph.request (deleteUser Sample.fragments "1")
                          Sample.store_with_shared_pair)))
  = Returned (Dgraph.user_json Sample.bob).
Proof. reflexivity. Qed.

(** * Further properties *)

(** ** Objects *)

Lemma lookup_omit_other (k k' : string) (o : obj) :
  k <> k' -> lookup k (omit k' o) = lookup k o.
Proof.
  intros Hne. induction o as [| [k0 v] o IH]; simpl; [reflexivity |].
  destruct (String.eqb k' k0) eqn:E; simpl.
  - apply String.eqb_eq in E. subst k0.
    destruct (String.eqb k k') eqn:E'; [| exact IH].
    apply String.eqb_eq in E'. contradiction.
  - rewrite IH. reflexivity.
Qed.

Lemma lookup_set_same (k : string) (v : value) (o : obj) :
  lookup k (set k v o) = Some v.
Proof.
  induction o as [| [k0 v0] o IH]; simpl.
  - rewrite String.eqb_refl. reflexivity.
  - destruct (String.eqb k k0) eqn:E; simpl.
    + rewrite String.eqb_refl. reflexivity.
    + rewrite E. exact IH.
Qed.

Lemma lookup_set_other (k k' : string) (v : value) (o : obj) :
  k <> k' -> lookup k (set k' v o) = lookup k o.
Proof.
  intros Hne. apply String.eqb_neq in Hne.
  induction o as [| [k0 v0] o IH]; simpl.
  - rewrite Hne. reflexivity.
  - destruct (String.eqb k' k0) eqn:E; simpl.
    + apply String.eqb_eq in E. subst k0. rewrite Hne. reflexivity.
    + rewrite IH. reflexivity.
Qed.

Lemma get_omit_other (k k' : string) (o : obj) :
  k <> k' -> get k (omit k' o) = get k o.
Proof. intros H. unfold get. rewrite lookup_omit_other by exact H. reflexivity. Qed.

Lemma get_omit_same (k : string) (o : obj) : get k (omit k o) = VUndefined.
Proof. unfold get. rewrite lookup_omit. reflexivity. Qed.

Lemma get_set_same (k : string) (v : value) (o : obj) : get k (set k v o) = v.
Proof. unfold get. rewrite lookup_set_same. reflexivity. Qed.

Lemma get_set_other (k k' : string) (v : value) (o : obj) :
  k <> k' -> get k (set k' v o) = get k o.
Proof. intros H. unfold get. rewrite lookup_set_other by exact H. reflexivity. Qed.

(** A method that makes one request and has no request left on any answer. *)
Ltac one_request H :=
  unfold run, por, member, index; simpl; rewrite H; simpl.

(** ** updateUser *)

(** X1.  [updateUser] makes one request: the [id] of its argument goes into
    the variable [id], and the variable [input] is the argument without its
    [id] and with every other property as it was.  It returns the first
    updated record when the answer reports one and throws its error when the
    answer reports none. *)
Theorem updateUser_splits_id :
  forall (S : Type) (h : Handler S) (fr : Entity -> option string)
         (user : obj) (answer : value) (s s' : S),
    h (mkRequest (mkDocument UpdateUser [fr User])
                 (VObj [("id", get "id" user); ("input", VObj (omit "id" user))])) s
    = (inr answer, s') ->
    calls (exec h (updateUser fr user) s)
    = [mkRequest (mkDocument UpdateUser [fr User])
                 (VObj [("id", get "id" user); ("input", VObj (omit "id" user))])]
    /\ final (exec h (updateUser fr user) s) = s'
    /\ lookup "id" (omit "id" user) = None
    /\ (forall k, k <> "id" -> lookup k (omit "id" user) = lookup k user)
    /\ (forall r, reports_first "user" r answer ->
                  outcome (exec h (updateUser fr user) s) = Returned (VObj r))
    /\ (reports_none "user" answer ->
        outcome (exec h (updateUser fr user) s) = Thrown (Error "Failed to update user")).
Proof.
  intros S h fr user answer s s' H.
  unfold updateUser. one_request H.
  split; [split_ifs; reflexivity |]. split; [split_ifs; reflexivity |].
  split; [apply lookup_omit |].
  split; [intros k Hk; apply lookup_omit_other; exact Hk |]. split.
  - intros r (o & rest & -> & Hr). unfold opt_member. simpl. rewrite Hr. reflexivity.
  - intros Hn. rewrite (first_of_none _ _ Hn). reflexivity.
Qed.

Lemma updateUser_splits_id_witness :
  outcome (exec Dgraph.request
             (updateUser Sample.fragments [("id", VStr "2"); ("name", VStr "Bob")])
             Sample.store)
  = Returned (VObj [("id", VStr "2"); ("email", VStr "bob@example.org");
                    ("name", VStr "Bob")])
  /\ outcome (exec Dgraph.request
                (updateUser Sample.fragments [("id", VStr "9"); ("name", VStr "Bob")])
                Sample.store)
     = Thrown (Error "Failed to update user").
Proof.
  split.
  - destruct (updateUser_splits_id Dgraph.Store Dgraph.request Sample.fragments
                [("id", VStr "2"); ("name", VStr "Bob")] _ Sample.store _ eq_refl)
      as (_ & _ & _ & _ & Hfirst & _).
    apply Hfirst. eexists _, _. split; reflexivity.
  - destruct (updateUser_splits_id Dgraph.Store Dgraph.request Sample.fragments
                [("id", VStr "9"); ("name", VStr "Bob")] _ Sample.store _ eq_refl)
      as (_ & _ & _ & _ & _ & Hnone).
    apply Hnone. apply none_empty_list. reflexivity.
Defined.

(** ** linkAccount *)

(** X2.  [linkAccount] makes one request whose input is the account without
    [id] and [userId], with the owner nested as [user: { id: userId }] in
    place of whatever [user] the account had, and with every other property
    as it was.  It returns the first created account when the answer reports
    one and throws its error when the answer reports none. *)
Theorem linkAccount_nests_owner :
  forall (S : Type) (h : Handler S) (fr : Entity -> option string)
         (account : obj) (answer : value) (s s' : S),
    h (mkRequest (mkDocument AddAccount [fr Account])
         (VObj [("input",
                 VArr [VObj (set "user" (VObj [("id", get "userId" account)])
                                 (omit "userId" (omit "id" account)))])])) s
    = (inr answer, s') ->
    (exists input,
       calls (exec h (linkAccount fr account) s)
       = [mkRequest (mkDocument AddAccount [fr Account])
                    (VObj [("input", VArr [VObj input])])]
       /\ lookup "id" input = None
       /\ lookup "userId" input = None
       /\ lookup "user" input = Some (VObj [("id", get "userId" account)])
       /\ (forall k, k <> "id" -> k <> "userId" -> k <> "user" ->
                     lookup k input = lookup k account))
    /\ final (exec h (linkAccount fr account) s) = s'
    /\ (forall r, reports_first "account" r answer ->
                  outcome (exec h (linkAccount fr account) s) = Returned (VObj r))
    /\ (reports_none "account" answer ->
        outcome (exec h (linkAccount fr account) s)
        = Thrown (Error "Failed to link account")).
Proof.
  intros S h fr account answer s s' H.
  unfold linkAccount. one_request H.
  split; [| split; [split_ifs; reflexivity | split]].
  - eexists. split; [split_ifs; reflexivity |].
    split; [| split; [| split]].
    + rewrite lookup_set_other by discriminate.
      rewrite lookup_omit_other by discriminate. apply lookup_omit.
    + rewrite lookup_set_other by discriminate. apply lookup_omit.
    + apply lookup_set_same.
    + intros k Hid Huid Hu.
      rewrite lookup_set_other by exact Hu.
      rewrite lookup_omit_other by exact Huid.
      apply lookup_omit_other. exact Hid.
  - intros r (o & rest & -> & Hr). unfold opt_member. simpl. rewrite Hr. reflexivity.
  - intros Hn. rewrite (first_of_none _ _ Hn). reflexivity.
Qed.

Lemma linkAccount_nests_owner_witness :
  outcome (exec Dgraph.request
             (linkAccount Sample.fragments
                [("id", VStr "mine"); ("userId", VStr "2"); ("provider", VStr "gitlab");
                 ("providerAccountId", VStr "77"); ("scope", VStr "read")])
             Sample.store)
  = Returned (Dgraph.account_json
                (Dgraph.mkAccount "6" "2" "gitlab" "77" [("scope", VStr "read")])).
Proof.
  destruct (linkAccount_nests_owner Dgraph.Store Dgraph.request Sample.fragments
              [("id", VStr "mine"); ("userId", VStr "2"); ("provider", VStr "gitlab");
               ("providerAccountId", VStr "77"); ("scope", VStr "read")]
              _ Sample.store _ eq_refl) as (_ & _ & Hfirst & _).
  apply Hfirst. eexists _, _. split; reflexivity.
Defined.

(** ** createUser *)

(** X3.  Whatever the transport does, [createUser] makes exactly one request,
    and the object it sends has no [id] and has every other property of the
    caller's object with the value the caller gave it. *)
Theorem createUser_forwards_other_properties :
  forall (S : Type) (h : Handler S) (fr : Entity -> option string)
         (user : obj) (s : S),
    exists input,
      calls (exec h (createUser fr user) s)
      = [mkRequest (mkDocument AddUser [fr User]) (VObj [("input", VArr [VObj input])])]
      /\ lookup "id" input = None
      /\ (forall k, k <> "id" -> lookup k input = lookup k user).
Proof.
  intros S h fr user s.
  destruct (createUser_strips_id S h fr user s) as (input & rest & Hc & -> & Hid).
  exists (omit "id" user).
  assert (input = omit "id" user) as ->.
  { unfold createUser, run in Hc. simpl in Hc.
    destruct (h _ s) as [[e | v] s'] in Hc; simpl in Hc; congruence. }
  split; [exact Hc |]. split; [exact Hid |].
  intros k Hk. apply lookup_omit_other. exact Hk.
Qed.

(** ** getUserByAccount *)

(** X4.  [getUserByAccount] makes one request with the provider and the
    provider's account id of its argument, and looks at the first account of
    the answer only: it returns that account's user, and [null] when the
    answer has no account or the first account has no user, whatever the
    accounts after it hold. *)
Theorem getUserByAccount_first_account_only :
  forall (S : Type) (h : Handler S) (fr : Entity -> option string)
         (account : obj) (answer : value) (s s' : S),
    h (mkRequest (mkDocument QueryAccount [fr User])
                 (VObj [("providerAccountId", get "providerAccountId" account);
                        ("provider", get "provider" account)])) s
    = (inr answer, s') ->
    calls (exec h (getUserByAccount fr account) s)
    = [mkRequest (mkDocument QueryAccount [fr User])
                 (VObj [("providerAccountId", get "providerAccountId" account);
                        ("provider", get "provider" account)])]
    /\ final (exec h (getUserByAccount fr account) s) = s'
    /\ (answer = VNull \/ answer = VUndefined \/ answer = VArr [] ->
        outcome (exec h (getUserByAccount fr account) s) = Returned VNull)
    /\ (forall a rest,
          answer = VArr (VObj a :: rest) ->
          (forall u, get "user" a = VObj u ->
                     outcome (exec h (getUserByAccount fr account) s) = Returned (VObj u))
          /\ (nullish (get "user" a) = true ->
              outcome (exec h (getUserByAccount fr account) s) = Returned VNull)).
Proof.
  intros S h fr account answer s s' H.
  unfold getUserByAccount, run. simpl. rewrite H. simpl.
  split; [reflexivity |]. split; [reflexivity |]. split.
  - intros [-> | [-> | ->]]; reflexivity.
  - intros a rest ->. unfold opt_member. simpl. split.
    + intros u ->. reflexivity.
    + intros Hn. destruct (get "user" a); simpl in Hn; try discriminate; reflexivity.
Qed.

Lemma getUserByAccount_first_account_only_witness :
  outcome (exec Dgraph.request
             (getUserByAccount Sample.fragments
                [("provider", VStr "github"); ("providerAccountId", VStr "43")])
             Sample.store)
  = Returned (Dgraph.user_json Sample.bob)
  /\ outcome (exec Dgraph.request
                (getUserByAccount Sample.fragments
                   [("provider", VStr "github"); ("providerAccountId", VStr "0")])
                Sample.store)
     = Returned VNull.
Proof.
  split.
  - destruct (getUserByAccount_first_account_only Dgraph.Store Dgraph.request
                Sample.fragments
                [("provider", VStr "github"); ("providerAccountId", VStr "43")]
                _ Sample.store _ eq_refl) as (_ & _ & _ & Hfirst).
    exact (proj1 (Hfirst _ _ eq_refl) _ eq_refl).
  - destruct (getUserByAccount_first_account_only Dgraph.Store Dgraph.request
                Sample.fragments
                [("provider", VStr "github"); ("providerAccountId", VStr "0")]
                _ Sample.store _ eq_refl) as (_ & _ & Hnone & _).
    apply Hnone. right. right. reflexivity.
Defined.

(** ** Results that are never undefined *)

Lemma or_else_null (v : value) : null_or_truthy (or_else v VNull).
Proof.
  unfold null_or_truthy, or_else. destruct (truthy v) eqn:E; [right; exact E | left; reflexivity].
Qed.

(** X5.  Whatever value the transport answers with, [getUserByEmail],
    [getUserByAccount], [deleteSession] and [useVerificationToken] return
    without throwing, and what they return is [null] or a truthy value: never
    [undefined], [false], [0] or the empty string. *)
Theorem lookups_return_null_or_truthy :
  forall (S : Type) (fr : Entity -> option string) (o : obj) (str : string)
         (answer : value) (s : S),
    Forall (fun p => exists v, outcome (exec (always answer) p s) = Returned v
                               /\ null_or_truthy v)
           [getUserByEmail fr str; getUserByAccount fr o; deleteSession fr str;
            useVerificationToken fr o].
Proof.
  intros S fr o str answer s.
  repeat (apply Forall_cons || apply Forall_nil);
    (eexists; split; [reflexivity | apply or_else_null]).
Qed.

(** ** createVerificationToken *)

(** X6.  [createVerificationToken] makes one request whose document
    interpolates no fragment and whose input is the caller's object as it
    is, [id] included.  It returns the first created token when the answer
    reports one and throws its error when the answer reports none. *)
Theorem createVerificationToken_forwards_input :
  forall (S : Type) (h : Handler S) (input : obj) (answer : value) (s s' : S),
    h (mkRequest (mkDocument AddVerificationToken [])
                 (VObj [("input", VArr [VObj input])])) s
    = (inr answer, s') ->
    calls (exec h (createVerificationToken input) s)
    = [mkRequest (mkDocument AddVerificationToken [])
                 (VObj [("input", VArr [VObj input])])]
    /\ final (exec h (createVerificationToken input) s) = s'
    /\ (forall r, reports_first "verificationToken" r answer ->
                  outcome (exec h (createVerificationToken input) s) = Returned (VObj r))
    /\ (reports_none "verificationToken" answer ->
        outcome (exec h (createVerificationToken input) s)
        = Thrown (Error "Failed to create verification token")).
Proof.
  intros S h input answer s s' H.
  unfold createVerificationToken. one_request H.
  split; [split_ifs; reflexivity |]. split; [split_ifs; reflexivity |]. split.
  - intros r Hr. rewrite (first_of_some _ _ _ Hr). reflexivity.
  - intros Hn. rewrite (first_of_none _ _ Hn). reflexivity.
Qed.

Lemma createVerificationToken_forwards_input_witness :
  outcome (exec Dgraph.request
             (createVerificationToken
                [("identifier", VStr "bob@example.org"); ("token", VStr "654321");
                 ("expires", VStr "2031-01-01")])
             Sample.store)
  = Returned (Dgraph.token_json
                (Dgraph.mkToken "bob@example.org" "654321" (VStr "2031-01-01")))
  /\ outcome (exec (always VNull)
                (createVerificationToken [("identifier", VStr "bob@example.org")])
                tt)
     = Thrown (Error "Failed to create verification token").
Proof.
  split.
  - destruct (createVerificationToken_forwards_input Dgraph.Store Dgraph.request
                [("identifier", VStr "bob@example.org"); ("token", VStr "654321");
                 ("expires", VStr "2031-01-01")] _ Sample.store _ eq_refl)
      as (_ & _ & Hfirst & _).
    apply Hfirst. eexists _, _. split; reflexivity.
  - destruct (createVerificationToken_forwards_input unit (always VNull)
                [("identifier", VStr "bob@example.org")] _ tt _ eq_refl)
      as (_ & _ & _ & Hnone).
    apply Hnone. apply none_null.
Defined.

(** ** deleteSession *)

(** X7.  [deleteSession] makes one request, the delete of the sessions with
    the given token, and returns the first deleted session when the answer
    reports one and [null] when it reports none; it throws nothing of its
    own. *)
Theorem deleteSession_first_or_null :
  forall (S : Type) (h : Handler S) (fr : Entity -> option string)
         (sessionToken : string) (answer : value) (s s' : S),
    h (mkRequest (mkDocument DeleteSession [fr Session])
                 (VObj [("sessionToken", VStr sessionToken)])) s
    = (inr answer, s') ->
    calls (exec h (deleteSession fr sessionToken) s)
    = [mkRequest (mkDocument DeleteSession [fr Session])
                 (VObj [("sessionToken", VStr sessionToken)])]
    /\ final (exec h (deleteSession fr sessionToken) s) = s'
    /\ occurs "deleteSession(filter: { sessionToken: { eq: $sessionToken } })"
              (hd "" (strings DeleteSession)) = true
    /\ (forall r, reports_first "session" r answer ->
                  outcome (exec h (deleteSession fr sessionToken) s) = Returned (VObj r))
    /\ (reports_none "session" answer ->
        outcome (exec h (deleteSession fr sessionToken) s) = Returned VNull).
Proof.
  intros S h fr sessionToken answer s s' H.
  unfold deleteSession, run. simpl. rewrite H. simpl.
  split; [reflexivity |]. split; [reflexivity |]. split; [reflexivity |]. split.
  - intros r Hr. rewrite (first_of_some _ _ _ Hr). reflexivity.
  - intros Hn. rewrite (first_of_none _ _ Hn). reflexivity.
Qed.

Lemma deleteSession_first_or_null_witness :
  outcome (exec Dgraph.request (deleteSession Sample.fragments "tok") Sample.store)
  = Returned (Dgraph.session_json (Dgraph.mkSession "4" "1" "tok" (VStr "2030-01-01")))
  /\ outcome (exec Dgraph.request (deleteSession Sample.fragments "none") Sample.store)
     = Returned VNull.
Proof.
  split.
  - destruct (deleteSession_first_or_null Dgraph.Store Dgraph.request Sample.fragments
                "tok" _ Sample.store _ eq_refl) as (_ & _ & _ & Hfirst & _).
    apply Hfirst. eexists _, _. split; reflexivity.
  - destruct (deleteSession_first_or_null Dgraph.Store Dgraph.request Sample.fragments
                "none" _ Sample.store _ eq_refl) as (_ & _ & _ & _ & Hnone).
    apply Hnone. apply none_empty_list. reflexivity.
Defined.

(** ** createSession *)

(** X8.  The guard of [createSession] stops at [undefined] only: with any
    other [userId], [null] included, the method makes one request whose input
    holds the session token, the expiry and the owner nested as
    [user: { id: userId }], and nothing else of the argument.  It returns the
    first created session when the answer reports one and throws its error
    when the answer reports none. *)
Theorem createSession_sends_three_properties :
  forall (S : Type) (h : Handler S) (fr : Entity -> option string)
         (session : obj) (answer : value) (s s' : S),
    get "userId" session <> VUndefined ->
    h (mkRequest (mkDocument AddSession [fr Session])
         (VObj [("input",
                 VArr [VObj [("sessionToken", get "sessionToken" session);
                             ("expires", get "expires" session);
                             ("user", VObj [("id", get "userId" session)])]])])) s
    = (inr answer, s') ->
    calls (exec h (createSession fr session) s)
    = [mkRequest (mkDocument AddSession [fr Session])
         (VObj [("input",
                 VArr [VObj [("sessionToken", get "sessionToken" session);
                             ("expires", get "expires" session);
                             ("user", VObj [("id", get "userId" session)])]])])]
    /\ final (exec h (createSession fr session) s) = s'
    /\ (forall r, reports_first "session" r answer ->
                  outcome (exec h (createSession fr session) s) = Returned (VObj r))
    /\ (reports_none "session" answer ->
        outcome (exec h (createSession fr session) s)
        = Thrown (Error "Failed to create session")).
Proof.
  intros S h fr session answer s s' Hid H.
  unfold createSession.
  assert (Hg : is_undefined (get "userId" session) = false).
  { destruct (get "userId" session); try reflexivity. congruence. }
  rewrite Hg. one_request H.
  split; [split_ifs; reflexivity |]. split; [split_ifs; reflexivity |]. split.
  - intros r (o & rest & -> & Hr). unfold opt_member. simpl. rewrite Hr. reflexivity.
  - intros Hn. rewrite (first_of_none _ _ Hn). reflexivity.
Qed.

Lemma createSession_sends_three_properties_witness :
  outcome (exec Dgraph.request
             (createSession Sample.fragments
                [("id", VStr "mine"); ("sessionToken", VStr "fresh");
                 ("userId", VStr "2"); ("expires", VStr "2031-01-01")])
             Sample.store)
  = Returned (Dgraph.session_json (Dgraph.mkSession "6" "2" "fresh" (VStr "2031-01-01")))
  /\ calls (exec (always VNull)
              (createSession Sample.fragments
                 [("sessionToken", VStr "fresh"); ("userId", VNull)])
              tt)
     = [mkRequest (mkDocument AddSession [Sample.fragments Session])
          (VObj [("input",
                  VArr [VObj [("sessionToken", VStr "fresh");
                              ("expires", VUndefined);
                              ("user", VObj [("id", VNull)])]])])].
Proof.
  split.
  - destruct (createSession_sends_three_properties Dgraph.Store Dgraph.request
                Sample.fragments
                [("id", VStr "mine"); ("sessionToken", VStr "fresh");
                 ("userId", VStr "2"); ("expires", VStr "2031-01-01")]
                _ Sample.store _ ltac:(discriminate) eq_refl) as (_ & _ & Hfirst & _).
    apply Hfirst. eexists _, _. split; reflexivity.
  - exact (proj1 (createSession_sends_three_properties unit (always VNull)
                    Sample.fragments
                    [("sessionToken", VStr "fresh"); ("userId", VNull)]
                    _ tt _ ltac:(discriminate) eq_refl)).
Defined.

(** ** Errors of the transport *)

(** X9.  No method catches what the transport throws.  For every transport
    and every state: when the transport throws on the request a method starts
    with, the method throws the same error, that request is the only one it
    made, and the server is left in the state the failed request left it in.
    [createSession] does the same unless its guard has thrown before any
    request. *)
Theorem transport_error_propagates :
  forall (S : Type) (h : Handler S) (fr : Entity -> option string) (o : obj)
         (str : string) (e : exn) (s s' : S),
    (forall p req,
       In (p, req) (first_requests fr o str) ->
       h req s = (inl e, s') ->
       exec h p s = mkExecution [req] (Thrown e) s')
    /\ (h (createSession_request fr o) s = (inl e, s') ->
        exec h (createSession fr o) s
        = if is_undefined (get "userId" o)
          then mkExecution [] (Thrown (Error "userId is undefined in createSession")) s
          else mkExecution [createSession_request fr o] (Thrown e) s').
Proof.
  intros S h fr o str e s s'. split.
  - intros p req Hin H. simpl in Hin.
    repeat (destruct Hin as [Hin | Hin]; [injection Hin as <- <- |]);
      try contradiction.
    all: unfold createUser, getUser, getUserByEmail, getUserByAccount, updateUser,
           deleteUser, linkAccount, unlinkAccount, getSessionAndUser,
           deleteSession, createVerificationToken, useVerificationToken,
           fetch_request, run in *;
         simpl; rewrite H; reflexivity.
  - intros H. unfold createSession, createSession_request, run in *.
    destruct (is_undefined (get "userId" o)); [reflexivity |].
    simpl. rewrite H. reflexivity.
Qed.

Lemma transport_error_propagates_witness :
  exec Sample.applied_then_thrown
       (createUser Sample.fragments [("name", VStr "Cy")]) Sample.store
  = mkExecution
      [mkRequest (mkDocument AddUser [Sample.fragments User])
                 (VObj [("input", VArr [VObj [("name", VStr "Cy")]])])]
      (Thrown Dgraph.rejected)
      (Dgraph.mkStore
         [Sample.ada; Sample.bob; Dgraph.mkUser "6" [("name", VStr "Cy")]]
         (Dgraph.accounts Sample.store) (Dgraph.sessions Sample.store)
         (Dgraph.verificationTokens Sample.store) 7)
  /\ exec Sample.applied_then_thrown
          (createSession Sample.fragments
             [("sessionToken", VStr "fresh"); ("userId", VStr "2")]) Sample.store
     = mkExecution
         [createSession_request Sample.fragments
            [("sessionToken", VStr "fresh"); ("userId", VStr "2")]]
         (Thrown Dgraph.rejected)
         (Dgraph.mkStore
            (Dgraph.users Sample.store) (Dgraph.accounts Sample.store)
            [Dgraph.mkSession "4" "1" "tok" (VStr "2030-01-01");
             Dgraph.mkSession "6" "2" "fresh" VUndefined]
            (Dgraph.verificationTokens Sample.store) 7).
Proof.
  split.
  - refine (proj1 (transport_error_propagates Dgraph.Store Sample.applied_then_thrown
                     Sample.fragments [("name", VStr "Cy")] "" Dgraph.rejected
                     Sample.store _) _ _ (or_introl eq_refl) eq_refl).
  - exact (proj2 (transport_error_propagates Dgraph.Store Sample.applied_then_thrown
                    Sample.fragments
                    [("sessionToken", VStr "fresh"); ("userId", VStr "2")] ""
                    Dgraph.rejected Sample.store _) eq_refl).
Defined.

(** X10.  [deleteUser] stops at the first request the transport throws on:
    an error on the fetch ends the method after one request, and an error on
    the delete of a fetched user ends it after two, with no cleanup
    request. *)
Theorem deleteUser_transport_errors :
  forall (S : Type) (h : Handler S) (fr : Entity -> option string)
         (userId : string) (e : exn) (s s1 : S),
    (h (fetch_request fr userId) s = (inl e, s1) ->
     exec h (deleteUser fr userId) s
     = mkExecution [fetch_request fr userId] (Thrown e) s1)
    /\ (forall found user s2,
          h (fetch_request fr userId) s = (inr found, s1) ->
          reports_first "user" user found ->
          h (delete_request fr userId) s1 = (inl e, s2) ->
          exec h (deleteUser fr userId) s
          = mkExecution [fetch_request fr userId; delete_request fr userId]
                        (Thrown e) s2).
Proof.
  intros S h fr userId e s s1. unfold fetch_request, delete_request. split.
  - intros H. unfold deleteUser, run. simpl. rewrite H. reflexivity.
  - intros found user s2 Hf Hu Hd. unfold deleteUser, run. simpl. rewrite Hf. simpl.
    rewrite (first_of_some _ _ _ Hu). simpl. rewrite Hd. reflexivity.
Qed.

Lemma deleteUser_transport_errors_witness :
  exec (Dgraph.request_unless Sample.delete_down)
       (deleteUser Sample.fragments "1") Sample.store
  = mkExecution [fetch_request Sample.fragments "1"; delete_request Sample.fragments "1"]
                (Thrown Dgraph.rejected) Sample.store
  /\ exec (refusing TypeError) (deleteUser Sample.fragments "1") Sample.store
     = mkExecution [fetch_request Sample.fragments "1"] (Thrown TypeError) Sample.store.
Proof.
  split.
  - refine (proj2 (deleteUser_transport_errors Dgraph.Store
                     (Dgraph.request_unless Sample.delete_down) Sample.fragments "1"
                     Dgraph.rejected Sample.store Sample.store)
                  _ (("id", VStr "1") :: _) Sample.store eq_refl _ eq_refl).
    eexists _, _. split; reflexivity.
  - exact (proj1 (deleteUser_transport_errors Dgraph.Store (refusing TypeError)
                    Sample.fragments "1" TypeError Sample.store Sample.store) eq_refl).
Defined.

(** X11.  When the fetched user carries no list of accounts, or a list of
    accounts but no list of sessions, [deleteUser] throws a [TypeError] after
    the user was deleted: the fetch and the delete are the only requests, and
    the server stays in the state that followed the delete. *)
Theorem deleteUser_without_lists_throws_after_delete :
  forall (S : Type) (h : Handler S) (fr : Entity -> option string)
         (userId : string) (found deleted : value) (user record : obj)
         (accounts : list obj) (s s1 s2 : S),
    h (fetch_request fr userId) s = (inr found, s1) ->
    reports_first "user" user found ->
    h (delete_request fr userId) s1 = (inr deleted, s2) ->
    reports_first "user" record deleted ->
    nullish (get "accounts" user) = true
    \/ (get "accounts" user = VArr (map VObj accounts)
        /\ nullish (get "sessions" user) = true) ->
    exec h (deleteUser fr userId) s
    = mkExecution [fetch_request fr userId; delete_request fr userId]
                  (Thrown TypeError) s2.
Proof.
  unfold fetch_request, delete_request.
  intros S h fr userId found deleted user record accounts s s1 s2 Hf Hu Hd Hr Hl.
  unfold deleteUser, run. simpl. rewrite Hf. simpl.
  rewrite (first_of_some _ _ _ Hu). simpl.
  rewrite Hd. simpl. rewrite (first_of_some _ _ _ Hr). simpl.
  unfold por. simpl.
  destruct Hl as [Hn | [Ha Hn]].
  - destruct (get "accounts" user); simpl in Hn; try discriminate; reflexivity.
  - rewrite Ha. simpl.
    destruct accounts as [| a accounts]; simpl.
    + destruct (get "sessions" user); simpl in Hn; try discriminate; reflexivity.
    + rewrite mapM_member. simpl.
      destruct (get "sessions" user); simpl in Hn; try discriminate; reflexivity.
Qed.

Lemma deleteUser_without_lists_throws_after_delete_witness :
  exec (answers Sample.user_without_lists) (deleteUser Sample.fragments "1") tt
  = mkExecution [fetch_request Sample.fragments "1"; delete_request Sample.fragments "1"]
                (Thrown TypeError) tt.
Proof.
  refine (deleteUser_without_lists_throws_after_delete unit
            (answers Sample.user_without_lists) Sample.fragments "1"
            _ _ [("id", VStr "1")] [("id", VStr "1")] [] tt tt tt
            eq_refl _ eq_refl _ (or_introl eq_refl));
    eexists _, _; split; reflexivity.
Defined.

(** ** Number of requests *)

Section Bounds.

Context {A : Type}.

Lemma AtMost_exec {S : Type} (h : Handler S) (n : nat) (p : Prog A) (s : S) :
  AtMost n p -> List.length (calls (exec h p s)) <= n.
Proof.
  intros Hp. revert s. induction Hp as [n a | n e | n req k Hk IH]; intros s; simpl.
  - apply Nat.le_0_l.
  - apply Nat.le_0_l.
  - destruct (h req s) as [[e | v] s']; simpl.
    + apply le_n_S, Nat.le_0_l.
    + apply le_n_S, IH.
Qed.

Lemma AtMost_quiet_bind {B : Type} (n : nat) (p : Prog B) (f : B -> Prog A) :
  AtMost 0 p -> (forall b, AtMost n (f b)) -> AtMost n (bind p f).
Proof.
  intros Hp Hf. inversion Hp; subst; simpl; [apply Hf | apply most_Throw].
Qed.

Lemma AtMost_quiet (n : nat) (p : Prog A) : AtMost 0 p -> AtMost n p.
Proof. intros Hp. inversion Hp; subst; constructor. Qed.

Lemma AtMost_bind_quiet {B : Type} (n : nat) (p : Prog B) (f : B -> Prog A) :
  AtMost n p -> (forall b, AtMost 0 (f b)) -> AtMost n (bind p f).
Proof.
  intros Hp Hf. induction Hp as [n b | n e | n req k Hk IH]; simpl.
  - apply AtMost_quiet. apply Hf.
  - apply most_Throw.
  - apply most_Run. exact IH.
Qed.

Lemma AtMost_run_bind (n : nat) (q : Document) (vars : value) (f : value -> Prog A) :
  (forall v, AtMost n (f v)) -> AtMost (Datatypes.S n) (bind (run q vars) f).
Proof. intros Hf. unfold run. simpl. apply most_Run. exact Hf. Qed.

End Bounds.

Lemma AtMost_mapM (f : value -> Prog value) (xs : list value) :
  (forall x, AtMost 0 (f x)) -> AtMost 0 (mapM f xs).
Proof.
  intros Hf. induction xs as [| x xs IH]; simpl.
  - apply most_Ret.
  - apply AtMost_quiet_bind; [apply Hf |]. intros y.
    apply AtMost_quiet_bind; [exact IH |]. intros ys. apply most_Ret.
Qed.

Ltac bounded :=
  cbv zeta;
  first
    [ apply most_Ret
    | apply most_Throw
    | apply most_Run; intros ?; bounded
    | apply AtMost_run_bind; intros ?; bounded
    | apply AtMost_mapM; intros ?; bounded
    | match goal with
      | |- AtMost _ (if ?c then _ else _) => destruct c; bounded
      | |- AtMost _ (match ?v with _ => _ end) => destruct v; bounded
      end
    | solve [apply AtMost_quiet_bind; [bounded | intros ?; bounded]]
    | solve [apply AtMost_bind_quiet; [bounded | intros ?; bounded]]
    | progress unfold run, member, index, por, array_map; bounded ].

Lemma methods_bounded (fr : Entity -> option string) (o : obj) (str : string) :
  Forall (AtMost 1) (single_request_methods fr o str)
  /\ AtMost 3 (deleteUser fr str).
Proof.
  split.
  - unfold single_request_methods.
    repeat (apply Forall_cons || apply Forall_nil).
    all: unfold createUser, getUser, getUserByEmail, getUserByAccount, updateUser,
           linkAccount, unlinkAccount, getSessionAndUser, createSession,
           deleteSession, createVerificationToken, useVerificationToken;
         bounded.
  - unfold deleteUser. bounded.
Qed.

(** X12.  Whatever the transport answers, a method makes at most one request,
    and [deleteUser] at most three: no method repeats a request or makes one
    more than its source shows. *)
Theorem request_bounds :
  forall (S : Type) (h : Handler S) (fr : Entity -> option string) (o : obj)
         (str : string) (s : S),
    Forall (fun p => List.length (calls (exec h p s)) <= 1)
           (single_request_methods fr o str)
    /\ List.length (calls (exec h (deleteUser fr str) s)) <= 3.
Proof.
  intros S h fr o str s.
  destruct (methods_bounded fr o str) as [Hone Hthree]. split.
  - rewrite Forall_forall in *. intros p Hp. apply AtMost_exec. apply Hone. exact Hp.
  - apply AtMost_exec. exact Hthree.
Qed.

(** ** Fragments and behaviour *)

Section Alike.

Context {A : Type}.

Lemma SameButText_refl (p : Prog A) : SameButText p p.
Proof.
  induction p as [a | e | req k IH]; constructor; auto.
Qed.

Lemma SameButText_bind {B : Type} (p q : Prog B) (f g : B -> Prog A) :
  SameButText p q -> (forall b, SameButText (f b) (g b)) ->
  SameButText (bind p f) (bind q g).
Proof.
  intros Hpq Hfg.
  induction Hpq as [b | e | req req' k k' Ht Hv Hk IH]; simpl.
  - apply Hfg.
  - apply same_Throw.
  - apply same_Run; [exact Ht | exact Hv | exact IH].
Qed.

Lemma SameButText_exec {S : Type} (h : Handler S) (p q : Prog A) (s : S) :
  reads_no_fragment h ->
  SameButText p q ->
  outcome (exec h p s) = outcome (exec h q s)
  /\ final (exec h p s) = final (exec h q s)
  /\ map shape (calls (exec h p s)) = map shape (calls (exec h q s)).
Proof.
  intros Hh Hpq. revert s.
  induction Hpq as [a | e | req req' k k' Ht Hv Hk IH]; intros s; simpl.
  - auto.
  - auto.
  - assert (Hs : shape req = shape req').
    { unfold shape. rewrite Ht, Hv. reflexivity. }
    rewrite (Hh req req' s Hs).
    destruct (h req' s) as [[e | v] s']; simpl.
    + rewrite Hs. auto.
    + destruct (IH v s') as (Ho & Hf & Hc). rewrite Ho, Hf, Hc, Hs. auto.
Qed.

End Alike.

Ltac alike :=
  cbv zeta;
  repeat first
    [ apply SameButText_refl
    | apply same_Run; [reflexivity | reflexivity | intros ?]
    | apply SameButText_bind; [| intros ?]
    | match goal with
      | |- SameButText (if ?c then _ else _) (if ?c then _ else _) => destruct c
      end
    | progress unfold run ].

Lemma methods_alike (f g : Entity -> option string) (o : obj) (str : string)
    (p q : Prog value) :
  In (p, q) (combine (invocations (mkAdapter
                        (createUser f) (getUser f) (getUserByEmail f)
                        (getUserByAccount f) (updateUser f) (deleteUser f)
                        (linkAccount f) (unlinkAccount f) (getSessionAndUser f)
                        (createSession f) (deleteSession f) createVerificationToken
                        (useVerificationToken f)) o str)
                     (invocations (mkAdapter
                        (createUser g) (getUser g) (getUserByEmail g)
                        (getUserByAccount g) (updateUser g) (deleteUser g)
                        (linkAccount g) (unlinkAccount g) (getSessionAndUser g)
                        (createSession g) (deleteSession g) createVerificationToken
                        (useVerificationToken g)) o str)) ->
  SameButText p q.
Proof.
  simpl.
  intros H.
  repeat (destruct H as [H | H]; [injection H as <- <- |]); try contradiction.
  all: unfold createUser, getUser, getUserByEmail, getUserByAccount, updateUser,
         deleteUser, linkAccount, unlinkAccount, getSessionAndUser, createSession,
         deleteSession, createVerificationToken, useVerificationToken;
       alike.
Qed.

Lemma request_reads_no_fragment : reads_no_fragment Dgraph.request.
Proof.
  intros req req' s H. unfold shape in H. injection H as Ht Hv.
  unfold Dgraph.request. rewrite Ht, Hv. reflexivity.
Qed.

(** X13.  The fragments an adapter is built with reach the documents and
    nothing else.  Against a transport that does not look at the fragments,
    two adapters built with different defaults and options make the same
    requests up to the fragments (same templates, same variables, same
    order), end the same way and leave the server in the same state, method
    by method. *)
Theorem fragments_change_documents_only :
  forall (S : Type) (h : Handler S) (d d' : Entity -> string)
         (options options' : option DgraphAdapterOptions)
         (o : obj) (str : string) (p q : Prog value) (s : S),
    reads_no_fragment h ->
    In (p, q) (combine (invocations (DgraphAdapter d options) o str)
                       (invocations (DgraphAdapter d' options') o str)) ->
    outcome (exec h p s) = outcome (exec h q s)
    /\ final (exec h p s) = final (exec h q s)
    /\ map shape (calls (exec h p s)) = map shape (calls (exec h q s)).
Proof.
  intros S h d d' options options' o str p q s Hh Hin.
  apply SameButText_exec; [exact Hh |].
  exact (methods_alike (merged_fragments d options) (merged_fragments d' options')
                       o str p q Hin).
Qed.

Lemma fragments_change_documents_only_witness :
  outcome (exec Dgraph.request
             (adapter_getSessionAndUser (DgraphAdapter Sample.defaults None) "tok")
             Sample.store)
  = outcome (exec Dgraph.request
               (adapter_getSessionAndUser
                  (DgraphAdapter Sample.defaults Sample.short_session) "tok")
               Sample.store)
  /\ final (exec Dgraph.request
              (adapter_getSessionAndUser (DgraphAdapter Sample.defaults None) "tok")
              Sample.store)
     = final (exec Dgraph.request
                (adapter_getSessionAndUser
                   (DgraphAdapter Sample.defaults Sample.short_session) "tok")
                Sample.store)
  /\ map shape
         (calls (exec Dgraph.request
                   (adapter_getSessionAndUser (DgraphAdapter Sample.defaults None) "tok")
                   Sample.store))
     = map shape
           (calls (exec Dgraph.request
                     (adapter_getSessionAndUser
                        (DgraphAdapter Sample.defaults Sample.short_session) "tok")
                     Sample.store)).
Proof.
  apply (fragments_change_documents_only Dgraph.Store Dgraph.request
           Sample.defaults Sample.defaults None Sample.short_session [] "tok").
  - exact request_reads_no_fragment.
  - simpl. do 8 right. left. reflexivity.
Defined.

(** ** Methods in sequence, on the reference backend *)

Section MoreLists.

Context {A : Type} (p : A -> bool).

Lemma find_app_last (l : list A) (y : A) :
  (forall x, In x l -> p x = false) -> p y = true -> find p (l ++ [y]) = Some y.
Proof.
  intros Hl Hy. induction l as [| z l IH]; simpl.
  - rewrite Hy. reflexivity.
  - rewrite (Hl z (or_introl eq_refl)). apply IH.
    intros x Hx. apply Hl. right. exact Hx.
Qed.

Lemma filter_app_last (l : list A) (y : A) :
  (forall x, In x l -> p x = false) -> p y = true -> filter p (l ++ [y]) = [y].
Proof.
  intros Hl Hy. rewrite filter_app. rewrite (filter_nil_of_all p l Hl).
  simpl. rewrite Hy. reflexivity.
Qed.

Lemma filter_out_last (l : list A) (y : A) :
  (forall x, In x l -> p x = false) -> p y = true ->
  filter (fun x => negb (p x)) (l ++ [y]) = l.
Proof.
  intros Hl Hy. rewrite filter_app. simpl. rewrite Hy. simpl. rewrite app_nil_r.
  induction l as [| z l IH]; simpl; [reflexivity |].
  rewrite (Hl z (or_introl eq_refl)). simpl. f_equal. apply IH.
  intros x Hx. apply Hl. right. exact Hx.
Qed.

Lemma existsb_of_find (l : list A) (x : A) : find p l = Some x -> existsb p l = true.
Proof.
  intros H. apply existsb_exists. exists x.
  apply find_some in H. exact H.
Qed.

End MoreLists.

(** *** createUser, then getUser *)

Lemma request_add_user (f : list (option string)) (input : obj) (st : Dgraph.Store) :
  Dgraph.request (mkRequest (mkDocument AddUser f) (VObj [("input", VArr [VObj input])])) st
  = (inr (Dgraph.answer_list "user"
            [Dgraph.user_json (Dgraph.mkUser (Dgraph.fresh st) (omit "id" input))]),
     Dgraph.mkStore
       (Dgraph.users st ++ [Dgraph.mkUser (Dgraph.fresh st) (omit "id" input)])
       (Dgraph.accounts st) (Dgraph.sessions st) (Dgraph.verificationTokens st)
       (Datatypes.S (Dgraph.next_id st))).
Proof. reflexivity. Qed.

Lemma createUser_on_backend (fr : Entity -> option string) (user : obj)
    (st : Dgraph.Store) :
  exec Dgraph.request (createUser fr user) st
  = mkExecution
      [mkRequest (mkDocument AddUser [fr User])
                 (VObj [("input", VArr [VObj (omit "id" user)])])]
      (Returned (Dgraph.user_json
                   (Dgraph.mkUser (Dgraph.fresh st) (omit "id" (omit "id" user)))))
      (Dgraph.mkStore
         (Dgraph.users st
          ++ [Dgraph.mkUser (Dgraph.fresh st) (omit "id" (omit "id" user))])
         (Dgraph.accounts st) (Dgraph.sessions st) (Dgraph.verificationTokens st)
         (Datatypes.S (Dgraph.next_id st))).
Proof. reflexivity. Qed.

(** X14.  On the reference backend, [createUser] returns the caller's object
    with the id the store assigned in place of any id of the caller's, every
    other property as given; and when the store has not used that id before,
    [getUser] on it returns the same record. *)
Theorem createUser_then_getUser :
  forall (fr : Entity -> option string) (st : Dgraph.Store) (user : obj),
    next_id_unused st ->
    exists created,
      outcome (exec Dgraph.request (createUser fr user) st) = Returned (VObj created)
      /\ get "id" created = VStr (Dgraph.fresh st)
      /\ (forall k, k <> "id" -> get k created = get k user)
      /\ outcome (exec Dgraph.request (getUser fr (Dgraph.fresh st))
                    (final (exec Dgraph.request (createUser fr user) st)))
         = Returned (VObj created).
Proof.
  intros fr st user Hunused.
  exists (("id", VStr (Dgraph.fresh st)) :: omit "id" (omit "id" user)).
  rewrite createUser_on_backend. cbn [outcome final].
  split; [reflexivity |]. split; [reflexivity |]. split.
  - intros k Hk. unfold get at 1. simpl.
    apply String.eqb_neq in Hk. rewrite Hk.
    apply String.eqb_neq in Hk.
    rewrite !lookup_omit_other by exact Hk. reflexivity.
  - rewrite getUser_on_backend. cbn [outcome]. unfold Dgraph.owner_json.
    cbn [Dgraph.users].
    rewrite (find_app_last (Dgraph.has_id (Dgraph.fresh st))).
    + reflexivity.
    + intros x Hx. unfold Dgraph.has_id. apply String.eqb_neq.
      intros Heq. exact (Hunused x Hx (eq_sym Heq)).
    + unfold Dgraph.has_id. apply String.eqb_refl.
Qed.

Lemma createUser_then_getUser_witness :
  exists created,
    outcome (exec Dgraph.request
               (createUser Sample.fragments [("id", VStr "mine"); ("name", VStr "Cy")])
               Sample.store)
    = Returned (VObj created)
    /\ get "id" created = VStr "6"
    /\ (forall k, k <> "id" ->
                  get k created = get k [("id", VStr "mine"); ("name", VStr "Cy")])
    /\ outcome (exec Dgraph.request (getUser Sample.fragments "6")
                  (final (exec Dgraph.request
                            (createUser Sample.fragments
                               [("id", VStr "mine"); ("name", VStr "Cy")])
                            Sample.store)))
       = Returned (VObj created).
Proof.
  apply (createUser_then_getUser Sample.fragments Sample.store
           [("id", VStr "mine"); ("name", VStr "Cy")]).
  intros u Hu. simpl in Hu. destruct Hu as [<- | [<- | []]]; discriminate.
Defined.

(** *** linkAccount, getUserByAccount, unlinkAccount *)

Lemma request_add_account (f : list (option string)) (input : obj)
    (provider providerAccountId owner : string) (u : Dgraph.UserNode)
    (st : Dgraph.Store) :
  get "provider" input = VStr provider ->
  get "providerAccountId" input = VStr providerAccountId ->
  get "user" input = VObj [("id", VStr owner)] ->
  find (Dgraph.has_id owner) (Dgraph.users st) = Some u ->
  Dgraph.request (mkRequest (mkDocument AddAccount f) (VObj [("input", VArr [VObj input])])) st
  = (inr (Dgraph.answer_list "account"
            [Dgraph.account_json
               (Dgraph.mkAccount (Dgraph.fresh st) owner provider providerAccountId
                  (omit "user" (omit "providerAccountId"
                     (omit "provider" (omit "id" input)))))]),
     Dgraph.mkStore (Dgraph.users st)
       (Dgraph.accounts st
        ++ [Dgraph.mkAccount (Dgraph.fresh st) owner provider providerAccountId
              (omit "user" (omit "providerAccountId"
                 (omit "provider" (omit "id" input))))])
       (Dgraph.sessions st) (Dgraph.verificationTokens st)
       (Datatypes.S (Dgraph.next_id st))).
Proof.
  intros Hp Hq Hu Hfind. unfold Dgraph.request. simpl.
  unfold Dgraph.add_account, Dgraph.first_input. simpl.
  rewrite Hp, Hq, Hu. simpl.
  rewrite (existsb_of_find _ _ _ Hfind). reflexivity.
Qed.

Lemma linkAccount_input (account : obj) (provider providerAccountId owner : string) :
  get "provider" account = VStr provider ->
  get "providerAccountId" account = VStr providerAccountId ->
  get "userId" account = VStr owner ->
  get "provider" (set "user" (VObj [("id", get "userId" account)])
                      (omit "userId" (omit "id" account))) = VStr provider
  /\ get "providerAccountId" (set "user" (VObj [("id", get "userId" account)])
                                  (omit "userId" (omit "id" account)))
     = VStr providerAccountId
  /\ get "user" (set "user" (VObj [("id", get "userId" account)])
                     (omit "userId" (omit "id" account)))
     = VObj [("id", VStr owner)].
Proof.
  intros Hp Hq Hu. repeat split.
  - rewrite get_set_other, !get_omit_other by discriminate. exact Hp.
  - rewrite get_set_other, !get_omit_other by discriminate. exact Hq.
  - rewrite get_set_same, Hu. reflexivity.
Qed.

Lemma linkAccount_answered (S : Type) (h : Handler S) (fr : Entity -> option string)
    (account r : obj) (answer : value) (s s' : S) :
  h (mkRequest (mkDocument AddAccount [fr Account])
       (VObj [("input",
               VArr [VObj (set "user" (VObj [("id", get "userId" account)])
                               (omit "userId" (omit "id" account)))])])) s
  = (inr answer, s') ->
  reports_first "account" r answer ->
  exec h (linkAccount fr account) s
  = mkExecution
      [mkRequest (mkDocument AddAccount [fr Account])
         (VObj [("input",
                 VArr [VObj (set "user" (VObj [("id", get "userId" account)])
                                 (omit "userId" (omit "id" account)))])])]
      (Returned (VObj r)) s'.
Proof.
  intros H (o & rest & -> & Hr). unfold linkAccount. one_request H.
  unfold opt_member. simpl. rewrite Hr. reflexivity.
Qed.

Lemma unlinkAccount_on_backend (fr : Entity -> option string)
    (provider providerAccountId : string) (st : Dgraph.Store) :
  exec Dgraph.request
       (unlinkAccount fr [("provider", VStr provider);
                          ("providerAccountId", VStr providerAccountId)]) st
  = mkExecution
      [mkRequest (mkDocument DeleteAccount [fr Account])
         (VObj [("providerAccountId", VStr providerAccountId);
                ("provider", VStr provider)])]
      (Returned
         (opt_index
            (opt_member
               (Dgraph.answer_list "account"
                  (map Dgraph.account_json
                       (filter (Dgraph.has_pair provider providerAccountId)
                               (Dgraph.accounts st))))
               "account")
            0))
      (Dgraph.mkStore (Dgraph.users st)
         (filter (fun a => negb (Dgraph.has_pair provider providerAccountId a))
                 (Dgraph.accounts st))
         (Dgraph.sessions st) (Dgraph.verificationTokens st) (Dgraph.next_id st)).
Proof. reflexivity. Qed.

(** X15.  On the reference backend, for an account whose provider, provider's
    account id and [userId] are strings, whose owner exists and whose pair no
    stored account has: after [linkAccount], [getUserByAccount] on the pair
    returns the owner; [unlinkAccount] on the pair then returns the account
    that was linked and leaves the accounts of the store as they were before;
    and [getUserByAccount] on the pair returns [null] again. *)
Theorem linkAccount_then_unlinkAccount :
  forall (fr : Entity -> option string) (st : Dgraph.Store) (account : obj)
         (provider providerAccountId owner : string) (u : Dgraph.UserNode),
    get "provider" account = VStr provider ->
    get "providerAccountId" account = VStr providerAccountId ->
    get "userId" account = VStr owner ->
    find (Dgraph.has_id owner) (Dgraph.users st) = Some u ->
    (forall a, In a (Dgraph.accounts st) ->
               Dgraph.has_pair provider providerAccountId a = false) ->
    exists linked_account st1 st2,
      exec Dgraph.request (linkAccount fr account) st
      = mkExecution (calls (exec Dgraph.request (linkAccount fr account) st))
                    (Returned linked_account) st1
      /\ outcome (exec Dgraph.request
                    (getUserByAccount fr
                       [("provider", VStr provider);
                        ("providerAccountId", VStr providerAccountId)]) st1)
         = Returned (Dgraph.user_json u)
      /\ exec Dgraph.request
              (unlinkAccount fr
                 [("provider", VStr provider);
                  ("providerAccountId", VStr providerAccountId)]) st1
         = mkExecution
             (calls (exec Dgraph.request
                       (unlinkAccount fr
                          [("provider", VStr provider);
                           ("providerAccountId", VStr providerAccountId)]) st1))
             (Returned linked_account) st2
      /\ Dgraph.accounts st2 = Dgraph.accounts st
      /\ Dgraph.users st2 = Dgraph.users st
      /\ outcome (exec Dgraph.request
                    (getUserByAccount fr
                       [("provider", VStr provider);
                        ("providerAccountId", VStr providerAccountId)]) st2)
         = Returned VNull.
Proof.
  intros fr st account provider providerAccountId owner u Hp Hq Hu Hfind Hnew.
  destruct (linkAccount_input account provider providerAccountId owner Hp Hq Hu)
    as (Hp' & Hq' & Hu').
  pose proof (request_add_account [fr Account] _ provider providerAccountId owner u st
                Hp' Hq' Hu' Hfind) as Hreq.
  set (a := Dgraph.mkAccount (Dgraph.fresh st) owner provider providerAccountId
              (omit "user" (omit "providerAccountId" (omit "provider" (omit "id"
                 (set "user" (VObj [("id", get "userId" account)])
                      (omit "userId" (omit "id" account)))))))) in *.
  assert (Ha : Dgraph.has_pair provider providerAccountId a = true).
  { unfold Dgraph.has_pair. simpl. rewrite !String.eqb_refl. reflexivity. }
  exists (Dgraph.account_json a),
         (Dgraph.mkStore (Dgraph.users st) (Dgraph.accounts st ++ [a])
                         (Dgraph.sessions st) (Dgraph.verificationTokens st)
                         (Datatypes.S (Dgraph.next_id st))),
         (Dgraph.mkStore (Dgraph.users st) (Dgraph.accounts st)
                         (Dgraph.sessions st) (Dgraph.verificationTokens st)
                         (Datatypes.S (Dgraph.next_id st))).
  assert (Hfirst : reports_first "account"
                     (("id", VStr (Dgraph.account_id a))
                      :: ("provider", VStr (Dgraph.account_provider a))
                      :: ("providerAccountId", VStr (Dgraph.account_providerAccountId a))
                      :: ("user", Dgraph.owner_ref (Dgraph.account_user a))
                      :: Dgraph.account_fields a)
                     (Dgraph.answer_list "account" [Dgraph.account_json a])).
  { eexists _, _. split; reflexivity. }
  rewrite (linkAccount_answered _ _ fr account _ _ st _ Hreq Hfirst).
  split; [reflexivity |].
  rewrite !getUserByAccount_on_backend, unlinkAccount_on_backend.
  cbn [Dgraph.accounts Dgraph.users calls].
  rewrite (filter_app_last _ _ _ Hnew Ha), (filter_out_last _ _ _ Hnew Ha).
  rewrite (filter_nil_of_all _ _ Hnew).
  split; [| split; [reflexivity | split; [reflexivity | split; reflexivity]]].
  unfold Dgraph.owner_json. cbn [map Dgraph.account_user a Dgraph.users].
  rewrite Hfind. reflexivity.
Qed.

Lemma linkAccount_then_unlinkAccount_witness :
  exists linked_account st1 st2,
    exec Dgraph.request
         (linkAccount Sample.fragments
            [("userId", VStr "2"); ("provider", VStr "gitlab");
             ("providerAccountId", VStr "77")]) Sample.store
    = mkExecution
        (calls (exec Dgraph.request
                  (linkAccount Sample.fragments
                     [("userId", VStr "2"); ("provider", VStr "gitlab");
                      ("providerAccountId", VStr "77")]) Sample.store))
        (Returned linked_account) st1
    /\ outcome (exec Dgraph.request
                  (getUserByAccount Sample.fragments
                     [("provider", VStr "gitlab"); ("providerAccountId", VStr "77")]) st1)
       = Returned (Dgraph.user_json Sample.bob)
    /\ exec Dgraph.request
            (unlinkAccount Sample.fragments
               [("provider", VStr "gitlab"); ("providerAccountId", VStr "77")]) st1
       = mkExecution
           (calls (exec Dgraph.request
                     (unlinkAccount Sample.fragments
                        [("provider", VStr "gitlab"); ("providerAccountId", VStr "77")])
                     st1))
           (Returned linked_account) st2
    /\ Dgraph.accounts st2 = Dgraph.accounts Sample.store
    /\ Dgraph.users st2 = Dgraph.users Sample.store
    /\ outcome (exec Dgraph.request
                  (getUserByAccount Sample.fragments
                     [("provider", VStr "gitlab"); ("providerAccountId", VStr "77")]) st2)
       = Returned VNull.
Proof.
  apply (linkAccount_then_unlinkAccount Sample.fragments Sample.store
           [("userId", VStr "2"); ("provider", VStr "gitlab");
            ("providerAccountId", VStr "77")]
           "gitlab" "77" "2" Sample.bob eq_refl eq_refl eq_refl eq_refl).
  intros a Ha. simpl in Ha. destruct Ha as [<- | [<- | []]]; reflexivity.
Defined.

(** *** createSession, getSessionAndUser, deleteSession *)

Lemma createSession_on_backend (fr : Entity -> option string) (session : obj)
    (token owner : string) (u : Dgraph.UserNode) (st : Dgraph.Store) :
  get "sessionToken" session = VStr token ->
  get "userId" session = VStr owner ->
  find (Dgraph.has_id owner) (Dgraph.users st) = Some u ->
  exec Dgraph.request (createSession fr session) st
  = mkExecution
      [mkRequest (mkDocument AddSession [fr Session])
         (VObj [("input",
                 VArr [VObj [("sessionToken", VStr token);
                             ("expires", get "expires" session);
                             ("user", VObj [("id", VStr owner)])]])])]
      (Returned (Dgraph.session_json
                   (Dgraph.mkSession (Dgraph.fresh st) owner token
                                     (get "expires" session))))
      (Dgraph.mkStore (Dgraph.users st) (Dgraph.accounts st)
         (Dgraph.sessions st
          ++ [Dgraph.mkSession (Dgraph.fresh st) owner token (get "expires" session)])
         (Dgraph.verificationTokens st) (Datatypes.S (Dgraph.next_id st))).
Proof.
  intros Ht Hu Hfind. unfold createSession. rewrite Ht, Hu. simpl.
  unfold Dgraph.request. simpl. unfold Dgraph.add_session, Dgraph.first_input. simpl.
  rewrite (existsb_of_find _ _ _ Hfind). reflexivity.
Qed.

Lemma getSessionAndUser_on_backend (fr : Entity -> option string) (token : string)
    (st : Dgraph.Store) :
  (forall s, In s (Dgraph.sessions st) -> Dgraph.has_sessionToken token s = false) ->
  outcome (exec Dgraph.request (getSessionAndUser fr token) st) = Returned VNull.
Proof.
  intros Hnone. unfold getSessionAndUser, run. simpl.
  unfold Dgraph.request. simpl. unfold Dgraph.get_session_and_user. simpl.
  rewrite (filter_nil_of_all _ _ Hnone). reflexivity.
Qed.

Lemma deleteSession_on_backend (fr : Entity -> option string) (token : string)
    (st : Dgraph.Store) :
  exec Dgraph.request (deleteSession fr token) st
  = mkExecution
      [mkRequest (mkDocument DeleteSession [fr Session])
                 (VObj [("sessionToken", VStr token)])]
      (Returned
         (or_else
            (opt_index
               (opt_member
                  (Dgraph.answer_list "session"
                     (map Dgraph.session_json
                          (filter (Dgraph.has_sessionToken token) (Dgraph.sessions st))))
                  "session")
               0)
            VNull))
      (Dgraph.mkStore (Dgraph.users st) (Dgraph.accounts st)
         (filter (fun s => negb (Dgraph.has_sessionToken token s)) (Dgraph.sessions st))
         (Dgraph.verificationTokens st) (Dgraph.next_id st)).
Proof. reflexivity. Qed.

(** X16.  On the reference backend, for a session whose token and [userId]
    are strings, whose owner exists and whose token no stored session has:
    after [createSession], [getSessionAndUser] on the token returns the
    created session paired with its owner; [deleteSession] on the token then
    returns the created session and leaves the sessions of the store as they
    were before; and [getSessionAndUser] on the token returns [null]. *)
Theorem createSession_then_deleteSession :
  forall (fr : Entity -> option string) (st : Dgraph.Store) (session : obj)
         (token owner : string) (u : Dgraph.UserNode),
    get "sessionToken" session = VStr token ->
    get "userId" session = VStr owner ->
    find (Dgraph.has_id owner) (Dgraph.users st) = Some u ->
    (forall s, In s (Dgraph.sessions st) -> Dgraph.has_sessionToken token s = false) ->
    exists created st1 st2,
      outcome (exec Dgraph.request (createSession fr session) st) = Returned created
      /\ final (exec Dgraph.request (createSession fr session) st) = st1
      /\ outcome (exec Dgraph.request (getSessionAndUser fr token) st1)
         = Returned (VObj [("session", created); ("user", Dgraph.user_json u)])
      /\ outcome (exec Dgraph.request (deleteSession fr token) st1) = Returned created
      /\ final (exec Dgraph.request (deleteSession fr token) st1) = st2
      /\ Dgraph.sessions st2 = Dgraph.sessions st
      /\ outcome (exec Dgraph.request (getSessionAndUser fr token) st2) = Returned VNull.
Proof.
  intros fr st session token owner u Ht Hu Hfind Hnew.
  set (se := Dgraph.mkSession (Dgraph.fresh st) owner token (get "expires" session)).
  assert (Hse : Dgraph.has_sessionToken token se = true).
  { unfold Dgraph.has_sessionToken. simpl. apply String.eqb_refl. }
  exists (Dgraph.session_json se),
         (Dgraph.mkStore (Dgraph.users st) (Dgraph.accounts st)
                         (Dgraph.sessions st ++ [se])
                         (Dgraph.verificationTokens st)
                         (Datatypes.S (Dgraph.next_id st))),
         (Dgraph.mkStore (Dgraph.users st) (Dgraph.accounts st)
                         (Dgraph.sessions st)
                         (Dgraph.verificationTokens st)
                         (Datatypes.S (Dgraph.next_id st))).
  rewrite (createSession_on_backend fr session token owner u st Ht Hu Hfind).
  rewrite !deleteSession_on_backend.
  cbn [outcome final Dgraph.sessions Dgraph.users Dgraph.accounts
       Dgraph.verificationTokens Dgraph.next_id].
  rewrite (filter_app_last _ _ _ Hnew Hse), (filter_out_last _ _ _ Hnew Hse).
  split; [reflexivity |]. split; [reflexivity |]. split.
  - unfold getSessionAndUser, run. simpl.
    unfold Dgraph.request. simpl. unfold Dgraph.get_session_and_user. simpl.
    rewrite (filter_app_last _ _ _ Hnew Hse). simpl.
    unfold Dgraph.owner_json. simpl. rewrite Hfind. reflexivity.
  - split; [reflexivity |]. split; [reflexivity |]. split; [reflexivity |].
    apply getSessionAndUser_on_backend. exact Hnew.
Qed.

Lemma createSession_then_deleteSession_witness :
  exists created st1 st2,
    outcome (exec Dgraph.request
               (createSession Sample.fragments
                  [("sessionToken", VStr "fresh"); ("userId", VStr "2");
                   ("expires", VStr "2031-01-01")]) Sample.store)
    = Returned created
    /\ final (exec Dgraph.request
                (createSession Sample.fragments
                   [("sessionToken", VStr "fresh"); ("userId", VStr "2");
                    ("expires", VStr "2031-01-01")]) Sample.store)
       = st1
    /\ outcome (exec Dgraph.request (getSessionAndUser Sample.fragments "fresh") st1)
       = Returned (VObj [("session", created); ("user", Dgraph.user_json Sample.bob)])
    /\ outcome (exec Dgraph.request (deleteSession Sample.fragments "fresh") st1)
       = Returned created
    /\ final (exec Dgraph.request (deleteSession Sample.fragments "fresh") st1) = st2
    /\ Dgraph.sessions st2 = Dgraph.sessions Sample.store
    /\ outcome (exec Dgraph.request (getSessionAndUser Sample.fragments "fresh") st2)
       = Returned VNull.
Proof.
  apply (createSession_then_deleteSession Sample.fragments Sample.store
           [("sessionToken", VStr "fresh"); ("userId", VStr "2");
            ("expires", VStr "2031-01-01")]
           "fresh" "2" Sample.bob eq_refl eq_refl eq_refl).
  intros s Hs. simpl in Hs. destruct Hs as [<- | []]. reflexivity.
Defined.

(** *** createVerificationToken, then useVerificationToken *)

Lemma createVerificationToken_on_backend (input : obj) (identifier token : string)
    (st : Dgraph.Store) :
  get "identifier" input = VStr identifier ->
  get "token" input = VStr token ->
  exec Dgraph.request (createVerificationToken input) st
  = mkExecution
      [mkRequest (mkDocument AddVerificationToken [])
                 (VObj [("input", VArr [VObj input])])]
      (Returned (Dgraph.token_json
                   (Dgraph.mkToken identifier token (get "expires" input))))
      (Dgraph.mkStore (Dgraph.users st) (Dgraph.accounts st) (Dgraph.sessions st)
         (Dgraph.verificationTokens st
          ++ [Dgraph.mkToken identifier token (get "expires" input)])
         (Dgraph.next_id st)).
Proof.
  intros Hi Ht. unfold createVerificationToken, run. simpl.
  unfold Dgraph.request. simpl.
  unfold Dgraph.add_verification_token, Dgraph.first_input. simpl.
  rewrite Hi, Ht. reflexivity.
Qed.

(** X17.  On the reference backend, for a token object whose identifier and
    token are strings and whose pair no stored token has:
    [createVerificationToken] returns the token with its identifier, token
    and expiry, [useVerificationToken] on the pair then returns the same
    token, and the tokens of the store are as they were before the two
    calls. *)
Theorem createVerificationToken_then_use :
  forall (fr : Entity -> option string) (st : Dgraph.Store) (input : obj)
         (identifier token : string),
    get "identifier" input = VStr identifier ->
    get "token" input = VStr token ->
    (forall t, In t (Dgraph.verificationTokens st) ->
               Dgraph.has_token token identifier t = false) ->
    outcome (exec Dgraph.request (createVerificationToken input) st)
    = Returned (VObj [("identifier", VStr identifier); ("token", VStr token);
                      ("expires", get "expires" input)])
    /\ outcome (exec Dgraph.request (useVerificationToken fr input)
                  (final (exec Dgraph.request (createVerificationToken input) st)))
       = Returned (VObj [("identifier", VStr identifier); ("token", VStr token);
                         ("expires", get "expires" input)])
    /\ Dgraph.verificationTokens
         (final (exec Dgraph.request (useVerificationToken fr input)
                   (final (exec Dgraph.request (createVerificationToken input) st))))
       = Dgraph.verificationTokens st.
Proof.
  intros fr st input identifier token Hi Ht Hnew.
  set (t := Dgraph.mkToken identifier token (get "expires" input)).
  assert (Hpair : Dgraph.has_token token identifier t = true).
  { unfold Dgraph.has_token. simpl. rewrite !String.eqb_refl. reflexivity. }
  rewrite (createVerificationToken_on_backend input identifier token st Hi Ht).
  cbn [outcome final].
  rewrite (useVerificationToken_answered _ _ _ _ _ _ _
             (request_delete_verification_token _ _ _ _ _ Hi Ht)).
  cbn [outcome final Dgraph.verificationTokens].
  fold t.
  rewrite (filter_app_last _ _ _ Hnew Hpair), (filter_out_last _ _ _ Hnew Hpair).
  repeat split; reflexivity.
Qed.

Lemma createVerificationToken_then_use_witness :
  outcome (exec Dgraph.request
             (useVerificationToken Sample.fragments
                [("identifier", VStr "bob@example.org"); ("token", VStr "654321");
                 ("expires", VStr "2031-01-01")])
             (final (exec Dgraph.request
                       (createVerificationToken
                          [("identifier", VStr "bob@example.org");
                           ("token", VStr "654321"); ("expires", VStr "2031-01-01")])
                       Sample.store)))
  = Returned (VObj [("identifier", VStr "bob@example.org"); ("token", VStr "654321");
                    ("expires", VStr "2031-01-01")]).
Proof.
  refine (proj1 (proj2 (createVerificationToken_then_use Sample.fragments Sample.store
                          [("identifier", VStr "bob@example.org");
                           ("token", VStr "654321"); ("expires", VStr "2031-01-01")]
                          "bob@example.org" "654321" eq_refl eq_refl _))).
  intros t Ht. simpl in Ht. destruct Ht as [<- | []]. reflexivity.
Defined.

(** *** updateUser on an id no user has *)

Lemma map_unchanged {A : Type} (p : A -> bool) (f : A -> A) (l : list A) :
  (forall x, In x l -> p x = false) ->
  map (fun x => if p x then f x else x) l = l.
Proof.
  intros H. induction l as [| z l IH]; simpl; [reflexivity |].
  rewrite (H z (or_introl eq_refl)). f_equal. apply IH.
  intros x Hx. apply H. right. exact Hx.
Qed.

(** X18.  On the reference backend, [updateUser] with an id no stored user
    has throws its error after its one request, and the users of the store
    are as they were. *)
Theorem updateUser_unknown_id_throws :
  forall (fr : Entity -> option string) (st : Dgraph.Store) (user : obj) (id : string),
    get "id" user = VStr id ->
    (forall u, In u (Dgraph.users st) -> Dgraph.has_id id u = false) ->
    outcome (exec Dgraph.request (updateUser fr user) st)
    = Thrown (Error "Failed to update user")
    /\ calls (exec Dgraph.request (updateUser fr user) st)
       = [mkRequest (mkDocument UpdateUser [fr User])
                    (VObj [("id", VStr id); ("input", VObj (omit "id" user))])]
    /\ Dgraph.users (final (exec Dgraph.request (updateUser fr user) st))
       = Dgraph.users st.
Proof.
  intros fr st user id Hid Hnone.
  unfold updateUser, run. rewrite Hid. simpl.
  unfold Dgraph.request. simpl. unfold Dgraph.update_user. simpl.
  rewrite (map_unchanged (Dgraph.has_id id)
             (fun u => Dgraph.mkUser (Dgraph.user_id u)
                         (Dgraph.patch_fields (omit "id" (omit "id" user))
                                              (Dgraph.user_fields u)))
             (Dgraph.users st) Hnone).
  rewrite (filter_nil_of_all _ _ Hnone). repeat split; reflexivity.
Qed.

Lemma updateUser_unknown_id_throws_witness :
  outcome (exec Dgraph.request
             (updateUser Sample.fragments [("id", VStr "9"); ("name", VStr "Nobody")])
             Sample.store)
  = Thrown (Error "Failed to update user")
  /\ Dgraph.users (final (exec Dgraph.request
                            (updateUser Sample.fragments
                               [("id", VStr "9"); ("name", VStr "Nobody")])
                            Sample.store))
     = Dgraph.users Sample.store.
Proof.
  assert (Hnone : forall u, In u (Dgraph.users Sample.store) ->
                            Dgraph.has_id "9" u = false).
  { intros u Hu. simpl in Hu. destruct Hu as [<- | [<- | []]]; reflexivity. }
  destruct (updateUser_unknown_id_throws Sample.fragments Sample.store
              [("id", VStr "9"); ("name", VStr "Nobody")] "9" eq_refl Hnone)
    as (Hout & _ & Husers).
  split; [exact Hout | exact Husers].
Defined.

(** ** getUserByEmail and useVerificationToken, on any transport *)

(** X19.  [getUserByEmail] makes one request, the query of the users whose
    email equals the argument, and returns the first user of the answer, or
    [null] when the answer reports none; users after the first are
    ignored. *)
Theorem getUserByEmail_first_or_null :
  forall (S : Type) (h : Handler S) (fr : Entity -> option string)
         (email : string) (answer : value) (s s' : S),
    h (mkRequest (mkDocument QueryUser [fr User]) (VObj [("email", VStr email)])) s
    = (inr answer, s') ->
    calls (exec h (getUserByEmail fr email) s)
    = [mkRequest (mkDocument QueryUser [fr User]) (VObj [("email", VStr email)])]
    /\ final (exec h (getUserByEmail fr email) s) = s'
    /\ occurs "queryUser(filter: { email: { eq: $email } })"
              (hd "" (strings QueryUser)) = true
    /\ (forall r, reports_first "user" r answer ->
                  outcome (exec h (getUserByEmail fr email) s) = Returned (VObj r))
    /\ (reports_none "user" answer ->
        outcome (exec h (getUserByEmail fr email) s) = Returned VNull).
Proof.
  intros S h fr email answer s s' H.
  unfold getUserByEmail, run. simpl. rewrite H. simpl.
  split; [reflexivity |]. split; [reflexivity |]. split; [reflexivity |]. split.
  - intros r Hr. rewrite (first_of_some _ _ _ Hr). reflexivity.
  - intros Hn. rewrite (first_of_none _ _ Hn). reflexivity.
Qed.

Lemma getUserByEmail_first_or_null_witness :
  outcome (exec Dgraph.request (getUserByEmail Sample.fragments "bob@example.org")
                Sample.store)
  = Returned (Dgraph.user_json Sample.bob)
  /\ outcome (exec Dgraph.request (getUserByEmail Sample.fragments "eve@example.org")
                   Sample.store)
     = Returned VNull.
Proof.
  split.
  - destruct (getUserByEmail_first_or_null Dgraph.Store Dgraph.request Sample.fragments
                "bob@example.org" _ Sample.store _ eq_refl) as (_ & _ & _ & Hfirst & _).
    apply Hfirst. eexists _, _. split; reflexivity.
  - destruct (getUserByEmail_first_or_null Dgraph.Store Dgraph.request Sample.fragments
                "eve@example.org" _ Sample.store _ eq_refl) as (_ & _ & _ & _ & Hnone).
    apply Hnone. apply none_empty_list. reflexivity.
Defined.

(** X20.  [useVerificationToken] makes one request whose variables are the
    caller's object itself, with whatever properties it has beside the
    identifier and the token, and returns the first deleted token of the
    answer, or [null] when the answer reports none. *)
Theorem useVerificationToken_first_or_null :
  forall (S : Type) (h : Handler S) (fr : Entity -> option string)
         (params : obj) (answer : value) (s s' : S),
    h (mkRequest (mkDocument DeleteVerificationToken [fr VerificationToken])
                 (VObj params)) s
    = (inr answer, s') ->
    calls (exec h (useVerificationToken fr params) s)
    = [mkRequest (mkDocument DeleteVerificationToken [fr VerificationToken])
                 (VObj params)]
    /\ final (exec h (useVerificationToken fr params) s) = s'
    /\ occurs "{ token: { eq: $token } }" (hd "" (strings DeleteVerificationToken)) = true
    /\ occurs "{ identifier: { eq: $identifier } }"
              (hd "" (strings DeleteVerificationToken)) = true
    /\ (forall r, reports_first "verificationToken" r answer ->
                  outcome (exec h (useVerificationToken fr params) s) = Returned (VObj r))
    /\ (reports_none "verificationToken" answer ->
        outcome (exec h (useVerificationToken fr params) s) = Returned VNull).
Proof.
  intros S h fr params answer s s' H.
  unfold useVerificationToken, run. simpl. rewrite H. simpl.
  split; [reflexivity |]. split; [reflexivity |].
  split; [reflexivity |]. split; [reflexivity |]. split.
  - intros r Hr. rewrite (first_of_some _ _ _ Hr). reflexivity.
  - intros Hn. rewrite (first_of_none _ _ Hn). reflexivity.
Qed.

Lemma useVerificationToken_first_or_null_witness :
  outcome (exec Dgraph.request
             (useVerificationToken Sample.fragments
                [("identifier", VStr "ada@example.org"); ("token", VStr "000000")])
             Sample.store)
  = Returned VNull
  /\ calls (exec (always VNull)
              (useVerificationToken Sample.fragments
                 [("identifier", VStr "a"); ("token", VStr "t"); ("note", VStr "x")])
              tt)
     = [mkRequest (mkDocument DeleteVerificationToken [Sample.fragments VerificationToken])
          (VObj [("identifier", VStr "a"); ("token", VStr "t"); ("note", VStr "x")])].
Proof.
  split.
  - destruct (useVerificationToken_first_or_null Dgraph.Store Dgraph.request
                Sample.fragments
                [("identifier", VStr "ada@example.org"); ("token", VStr "000000")]
                _ Sample.store _ eq_refl) as (_ & _ & _ & _ & _ & Hnone).
    apply Hnone. apply none_empty_list. reflexivity.
  - exact (proj1 (useVerificationToken_first_or_null unit (always VNull)
                    Sample.fragments
                    [("identifier", VStr "a"); ("token", VStr "t"); ("note", VStr "x")]
                    _ tt _ eq_refl)).
Defined.
